(** * go-tmux, [pane.go]: pane listing, target encoding and pane operations

    A shallow embedding of [pane.go].  Go strings are byte strings and are
    modelled by [string] (a list of 8-bit [ascii]); Go's [int] is the 64-bit
    signed integer of the usual targets and is modelled by [Z]; a Go [error]
    value is [option error] with [None] for [nil]; a run-time panic is an
    explicit outcome.  The ambient function [RunCmd] is not part of
    [pane.go]: it is a parameter of the development. *)

From Stdlib Require Import ZArith List Bool Ascii String Lia.
From Stdlib Require Import Numbers.DecimalString Numbers.DecimalPos Numbers.DecimalZ.
Import ListNotations.

Local Open Scope string_scope.
Local Open Scope list_scope.
Local Open Scope Z_scope.

(* ================================================================= *)
(** ** Bytes and byte strings *)

Definition byte_val (c : ascii) : Z := Z.of_N (N_of_ascii c).

Definition LF : ascii := "010"%char.
Definition colon : ascii := ":"%char.

Definition len (s : string) : Z := Z.of_nat (String.length s).

Fixpoint all_bytes (p : ascii -> bool) (s : string) : bool :=
  match s with
  | EmptyString => true
  | String c s' => p c && all_bytes p s'
  end.

Fixpoint count_byte (c : ascii) (s : string) : nat :=
  match s with
  | EmptyString => O
  | String a s' => if Ascii.eqb a c then S (count_byte c s') else count_byte c s'
  end.

Fixpoint drop (n : nat) (s : string) : string :=
  match n, s with
  | O, _ => s
  | S n', String _ s' => drop n' s'
  | S _, EmptyString => EmptyString
  end.

Fixpoint take (n : nat) (s : string) : string :=
  match n, s with
  | S n', String c s' => String c (take n' s')
  | _, _ => EmptyString
  end.

(* ================================================================= *)
(** ** Outcomes: a Go call returns or panics *)

Inductive panic : Type :=
| SliceBounds (hi length : Z)   (* slice bounds out of range [:hi] *)
| IndexRange (index length : Z) (* index out of range [index] with length *).

Inductive outcome (A : Type) : Type :=
| Ret (a : A)
| Panic (p : panic).
Arguments Ret {A} a.
Arguments Panic {A} p.

Definition obind {A B} (m : outcome A) (f : A -> outcome B) : outcome B :=
  match m with
  | Ret a => f a
  | Panic p => Panic p
  end.

(** [s[:hi]] *)
Definition slice_to (s : string) (hi : Z) : outcome string :=
  if (0 <=? hi) && (hi <=? len s) then Ret (take (Z.to_nat hi) s)
  else Panic (SliceBounds hi (len s)).

(** [a[i]] on a slice of strings *)
Definition index (a : list string) (i : nat) : outcome string :=
  match nth_error a i with
  | Some x => Ret x
  | None => Panic (IndexRange (Z.of_nat i) (Z.of_nat (List.length a)))
  end.

(* ================================================================= *)
(** ** Errors *)

Inductive numErr : Type := ErrSyntax | ErrRange.

(** [strconv.NumError] and the errors of the command runner. *)
Inductive error : Type :=
| NumError (Func Num : string) (Err : numErr)
| ExecError (msg : string).

(* ================================================================= *)
(** ** [strconv.Atoi]

    [Atoi s] is [ParseInt(s, 10, 0)] converted to [int]; [ParseInt] takes
    off the sign and calls [ParseUint].  [ParseUint] stops at the first
    byte that is not a digit (syntax error, value 0) or at the first
    overflow of the unsigned accumulator (range error, value [maxVal]),
    whichever comes first. *)

Definition intSize : Z := 64.
Definition maxUint64 : Z := 2 ^ 64 - 1.
Definition maxInt : Z := 2 ^ (intSize - 1) - 1.
Definition minInt : Z := - 2 ^ (intSize - 1).

Definition is_digit (c : ascii) : bool :=
  (48 <=? byte_val c) && (byte_val c <=? 57).

Definition digit_val (c : ascii) : Z := byte_val c - 48.

Fixpoint ParseUint_loop (s : string) (n : Z) : Z * option numErr :=
  match s with
  | EmptyString => (n, None)
  | String c s' =>
      if is_digit c then
        if n >=? maxUint64 / 10 + 1 then (maxUint64, Some ErrRange)
        else
          let n10 := n * 10 in
          let n1 := (n10 + digit_val c) mod 2 ^ 64 in
          if (n1 <? n10) || (n1 >? maxUint64) then (maxUint64, Some ErrRange)
          else ParseUint_loop s' n1
      else (0, Some ErrSyntax)
  end.

Definition ParseUint (s : string) : Z * option numErr :=
  match s with
  | EmptyString => (0, Some ErrSyntax)
  | _ => ParseUint_loop s 0
  end.

Definition ParseInt (s : string) : Z * option numErr :=
  match s with
  | EmptyString => (0, Some ErrSyntax)
  | String c s' =>
      let neg := Ascii.eqb c "-" in
      let body := if Ascii.eqb c "+" || neg then s' else s in
      match ParseUint body with
      | (_, Some ErrSyntax) => (0, Some ErrSyntax)
      | (un, _) =>
          let cutoff := 2 ^ (intSize - 1) in
          if negb neg && (un >=? cutoff) then (cutoff - 1, Some ErrRange)
          else if neg && (un >? cutoff) then (- cutoff, Some ErrRange)
          else (if neg then - un else un, None)
      end
  end.

Definition Atoi (s : string) : Z * option error :=
  match ParseInt s with
  | (v, None) => (v, None)
  | (v, Some e) => (v, Some (NumError "Atoi" s e))
  end.

(* ================================================================= *)
(** ** [fmt.Sprintf] with the verbs [%s] and [%d] *)

Inductive fmt_arg : Type :=
| AStr (s : string)
| AInt (n : Z).

(** [%d]: the decimal numeral of an [int]. *)
Definition itoa (n : Z) : string := NilZero.string_of_int (Z.to_int n).

Definition format_verb (v : ascii) (a : fmt_arg) : string :=
  match a with
  | AStr s => if Ascii.eqb v "s" then s else "%!" ++ String v "(string=" ++ s ++ ")"
  | AInt n => if Ascii.eqb v "d" then itoa n else "%!" ++ String v "(int=" ++ itoa n ++ ")"
  end.

Fixpoint Sprintf (f : string) (args : list fmt_arg) : string :=
  match f with
  | EmptyString => EmptyString
  | String c f' =>
      if Ascii.eqb c "%" then
        match f' with
        | String v f'' =>
            if Ascii.eqb v "%" then String "%" (Sprintf f'' args)
            else
              match args with
              | a :: rest => format_verb v a ++ Sprintf f'' rest
              | [] => "%!" ++ String v "(MISSING)" ++ Sprintf f'' []
              end
        | EmptyString => "%!(NOVERB)"
        end
      else String c (Sprintf f' args)
  end.

(* ================================================================= *)
(** ** [strings.Split], [strings.SplitN], [strings.Join]
       for a one-byte separator, the only kind [pane.go] uses *)

Fixpoint IndexByte (s : string) (sep : ascii) : option nat :=
  match s with
  | EmptyString => None
  | String c s' =>
      if Ascii.eqb c sep then Some O else option_map S (IndexByte s' sep)
  end.

(** The loop of [genSplit]: at most [n] cuts, the rest in the last piece. *)
Fixpoint genSplit (n : nat) (s : string) (sep : ascii) : list string :=
  match n with
  | O => [s]
  | S n' =>
      match IndexByte s sep with
      | None => [s]
      | Some m => take m s :: genSplit n' (drop (S m) s) sep
      end
  end.

Definition Split (s : string) (sep : ascii) : list string :=
  genSplit (count_byte sep s) s sep.

Definition SplitN (s : string) (sep : ascii) (n : nat) : list string :=
  match n with
  | O => []
  | S n' => genSplit (Nat.min n' (String.length s)) s sep
  end.

Definition Join (elems : list string) (sep : string) : string :=
  String.concat sep elems.

(* ================================================================= *)
(** ** [regexp]: the fragment the listing pattern is written in

    Leftmost-first matching, the match a backtracking search finds first,
    with greedy repetition.  The engine works on bytes.  Go's [.] takes a
    whole UTF-8 sequence, but in the pattern below every [.+] stands
    between ASCII literals, and no byte of a multi-byte sequence is ASCII,
    so the submatch boundaries are the same. *)

Inductive regex : Type :=
| Eps
| Lit (c : ascii)                (* a literal byte *)
| Class (p : ascii -> bool)      (* one byte of a class, as [[01]] *)
| Plus (p : ascii -> bool)       (* greedy [+] over a class, as [[0-9]+] or [.+] *)
| Cap (i : nat) (r : regex)      (* capturing group number [i] *)
| Cat (r1 r2 : regex).

Fixpoint cat (rs : list regex) : regex :=
  match rs with
  | [] => Eps
  | r :: rs' => Cat r (cat rs')
  end.

Fixpoint lits (cs : string) : regex :=
  match cs with
  | EmptyString => Eps
  | String c cs' => Cat (Lit c) (lits cs')
  end.

Definition dot (c : ascii) : bool := negb (Ascii.eqb c LF).
Definition zero_one (c : ascii) : bool := Ascii.eqb c "0" || Ascii.eqb c "1".

(** The submatches of a match in progress, by group number. *)
Definition caps : Type := list string.

Fixpoint set_cap (i : nat) (v : string) (cs : caps) : caps :=
  match i, cs with
  | O, _ :: cs' => v :: cs'
  | S i', c :: cs' => c :: set_cap i' v cs'
  | _, [] => []
  end.

(** What a sub-pattern consumed: [s] without its suffix [rest]. *)
Definition consumed (s rest : string) : string :=
  take (String.length s - String.length rest) s.

(** Longest run first, then one byte less, and so on. *)
Fixpoint plus_greedy {R : Type} (p : ascii -> bool) (s : string)
    (k : string -> option R) : option R :=
  match s with
  | EmptyString => None
  | String c s' =>
      if p c then
        match plus_greedy p s' k with
        | Some r => Some r
        | None => k s'
        end
      else None
  end.

Fixpoint exec (r : regex) (s : string) (cs : caps)
    (k : string -> caps -> option caps) : option caps :=
  match r with
  | Eps => k s cs
  | Lit c =>
      match s with
      | String a s' => if Ascii.eqb a c then k s' cs else None
      | EmptyString => None
      end
  | Class p =>
      match s with
      | String a s' => if p a then k s' cs else None
      | EmptyString => None
      end
  | Plus p => plus_greedy p s (fun s' => k s' cs)
  | Cap i r' => exec r' s cs (fun s' cs' => k s' (set_cap i (consumed s s') cs'))
  | Cat r1 r2 => exec r1 s cs (fun s1 cs1 => exec r2 s1 cs1 k)
  end.

(** A match anchored at the start of [s]; slot 0 is the whole match. *)
Definition match_here (r : regex) (ngroups : nat) (s : string) : option caps :=
  exec r s (repeat EmptyString (S ngroups))
       (fun rest cs => Some (set_cap 0 (consumed s rest) cs)).

(** The leftmost start position that matches wins. *)
Fixpoint search (r : regex) (ngroups : nat) (s : string) : option caps :=
  match match_here r ngroups s with
  | Some cs => Some cs
  | None =>
      match s with
      | EmptyString => None
      | String _ s' => search r ngroups s'
      end
  end.

Record Regexp : Type := { prog : regex; numSubexp : nat }.

(** [nil] without a match, else the match and its submatches. *)
Definition FindStringSubmatch (re : Regexp) (s : string) : list string :=
  match search (prog re) (numSubexp re) s with
  | Some cs => cs
  | None => []
  end.

(* ================================================================= *)
(** ** [pane.go] *)

Definition paneParts : nat := 7.

Record Pane : Type := {
  ID : Z;
  SessionId : Z;
  SessionName : string;
  WindowId : Z;
  WindowName : string;
  WindowIndex : Z;
  Active : bool
}.

(** [`\$([0-9]+):(.+):@([0-9]+):(.+):([0-9]+):%([0-9]+):([01])`] *)
Definition re : Regexp := {|
  prog := cat [ Lit "$"; Cap 1 (Plus is_digit); Lit ":";
                Cap 2 (Plus dot); lits ":@";
                Cap 3 (Plus is_digit); Lit ":";
                Cap 4 (Plus dot); Lit ":";
                Cap 5 (Plus is_digit); lits ":%";
                Cap 6 (Plus is_digit); Lit ":";
                Cap 7 (Class zero_one) ];
  numSubexp := 7
|}.

(** The listing format: the seven field tokens joined by [":"]. *)
Definition format : string :=
  Join [ "#{session_id}"; "#{session_name}"; "#{window_id}"; "#{window_name}";
         "#{window_index}"; "#{pane_id}"; "#{pane_active}" ] ":".

(** One iteration of the loop over [outLines] (lines 57-90): [inl] is an early
    [return nil, errAtoi], [inr] the slice [panes] after the iteration. *)
Definition parseLine (line : string) (panes : list Pane)
    : outcome (error + list Pane) :=
  let result := FindStringSubmatch re line in
  if (List.length result <=? paneParts)%nat then Ret (inr panes)
  else
    obind (index result 1) (fun r1 =>
    match Atoi r1 with
    | (_, Some errAtoi) => Ret (inl errAtoi)
    | (sessionID, None) =>
    obind (index result 3) (fun r3 =>
    match Atoi r3 with
    | (_, Some errAtoi) => Ret (inl errAtoi)
    | (windowID, None) =>
    obind (index result 5) (fun r5 =>
    match Atoi r5 with
    | (_, Some errAtoi) => Ret (inl errAtoi)
    | (windowIndex, None) =>
    obind (index result 6) (fun r6 =>
    match Atoi r6 with
    | (_, Some errAtoi) => Ret (inl errAtoi)
    | (paneIndex, None) =>
    obind (index result 2) (fun r2 =>
    obind (index result 4) (fun r4 =>
    obind (index result 7) (fun r7 =>
    Ret (inr (panes ++ [ {| SessionId := sessionID;
                            SessionName := r2;
                            WindowId := windowID;
                            WindowName := r4;
                            WindowIndex := windowIndex;
                            ID := paneIndex;
                            Active := String.eqb r7 "1" |} ])))))
    end)
    end)
    end)
    end).

(** The loop of lines 56-93 over the remaining lines. *)
Fixpoint parseLines (outLines : list string) (panes : list Pane)
    : outcome (list Pane * option error) :=
  match outLines with
  | [] => Ret (panes, None)
  | line :: rest =>
      obind (parseLine line panes) (fun step =>
      match step with
      | inl errAtoi => Ret ([], Some errAtoi)
      | inr panes' => parseLines rest panes'
      end)
  end.

(** Lines 52-93: what [ListPanes] does with the runner's standard output. *)
Definition parseListing (out : string) : outcome (list Pane * option error) :=
  parseLines (Split out LF) [].

(** The two target strings the methods build in line:
    [fmt.Sprintf("%s:%d", p.SessionName, p.WindowId)] (lines 115, 136, 145) and
    [fmt.Sprintf("%s:%d.%d", p.SessionName, p.WindowId, p.ID)]
    (lines 123, 134, 143, 160, 183, 203). *)
Definition windowTarget (p : Pane) : string :=
  Sprintf "%s:%d" [AStr (SessionName p); AInt (WindowId p)].

Definition paneTarget (p : Pane) : string :=
  Sprintf "%s:%d.%d" [AStr (SessionName p); AInt (WindowId p); AInt (ID p)].

(* ================================================================= *)
(** ** The command runner and the state the operations run in *)

(** The error [fmt.Errorf] builds: a value that carries its message. *)
Inductive errorString : Type := Errorf (msg : string).

(** A [*Pane]: an address in the store of panes; an address with nothing
    stored at it behaves as [nil]. *)
Definition ptr : Type := nat.

Definition reply : Type := (string * string * option error)%type.

Section Operations.

(** [RunCmd(args) (stdout, stderr, error)], with whatever it acts on. *)
Variable World : Type.
Variable RunCmd : list string -> World -> reply * World.

Record state : Type := {
  world : World;                  (* what the runner acts on *)
  calls : list (list string);     (* the argument vectors passed to [RunCmd], in order *)
  console : list string;          (* what [fmt.Println] wrote, in order *)
  store : ptr -> option Pane      (* the [Pane] values behind pointers *)
}.

Inductive result (A : Type) : Type :=
| Done (a : A) (st : state)
| Crash (why : panic + ptr)       (* a panic, or a dereference of a [nil] pointer *).
Arguments Done {A} a st.
Arguments Crash {A} why.

Definition M (A : Type) : Type := state -> result A.

Definition ret {A} (a : A) : M A := fun st => Done a st.

Definition bind {A B} (m : M A) (f : A -> M B) : M B :=
  fun st =>
    match m st with
    | Done a st' => f a st'
    | Crash w => Crash w
    end.

Notation "x <- m ;; k" := (bind m (fun x => k))
  (at level 61, m at next level, right associativity).
Notation "' pat <- m ;; k" := (bind m (fun x => match x with pat => k end))
  (at level 61, pat pattern, m at next level, right associativity).

Definition lift {A} (o : outcome A) : M A :=
  fun st =>
    match o with
    | Ret a => Done a st
    | Panic p => Crash (inl p)
    end.

(** The state after a call of the runner with [args] that left [w]. *)
Definition called (args : list string) (w : World) (st : state) : state :=
  {| world := w; calls := calls st ++ [args];
     console := console st; store := store st |}.

Definition runCmd (args : list string) : M reply :=
  fun st =>
    let '(r, w) := RunCmd args (world st) in
    Done r (called args w st).

(** [fmt.Println]: the operands separated by spaces, then a newline. *)
Definition Println (operands : list string) : M unit :=
  fun st =>
    Done tt {| world := world st; calls := calls st;
               console := console st ++ [(Join operands " " ++ String LF "")%string];
               store := store st |}.

Definition load (p : ptr) : M Pane :=
  fun st =>
    match store st p with
    | Some v => Done v st
    | None => Crash (inr p)
    end.

Definition write (p : ptr) (f : Pane -> Pane) : M unit :=
  fun st =>
    match store st p with
    | Some v =>
        Done tt {| world := world st; calls := calls st; console := console st;
                   store := fun q => if Nat.eqb q p then Some (f v) else store st q |}
    | None => Crash (inr p)
    end.

Definition set_WindowName (n : string) (v : Pane) : Pane :=
  {| ID := ID v; SessionId := SessionId v; SessionName := SessionName v;
     WindowId := WindowId v; WindowName := n; WindowIndex := WindowIndex v;
     Active := Active v |}.

Definition set_WindowId (n : Z) (v : Pane) : Pane :=
  {| ID := ID v; SessionId := SessionId v; SessionName := SessionName v;
     WindowId := n; WindowName := WindowName v; WindowIndex := WindowIndex v;
     Active := Active v |}.

(** The read-only methods take the [Pane] their receiver points to;
    [MovePane], which assigns to its receiver, takes the pointers. *)

Definition ListPanes (args : list string) : M (list Pane * option error) :=
  let args := ["list-panes"; "-F"; format] ++ args in
  '(out, _, err) <- runCmd args ;;
  match err with
  | Some e => ret ([], Some e)
  | None => lift (parseListing out)
  end.

Definition GetCurrentPath (p : Pane) : M (string * option error) :=
  let args := ["display-message"; "-P"; "-F"; "#{pane_current_path}"] in
  '(out, _, err) <- runCmd args ;;
  match err with
  | Some e => ret ("", Some e)
  | None =>
      out <- lift (slice_to out (len out - 1)) ;;
      ret (out, None)
  end.

Definition SetFocus (p : Pane) : M (option error) :=
  let args := ["select-window"; "-t"; windowTarget p] in
  '(_, _, err) <- runCmd args ;;
  let args := ["select-pane"; "-t"; paneTarget p] in
  '(_, _, err) <- runCmd args ;;
  ret err.

Definition MovePane (p pane_target : ptr) (focus : bool) : M (option error) :=
  pv <- load p ;;
  tv <- load pane_target ;;
  let args := ["join-pane"; "-s"; paneTarget pv; "-t"; windowTarget tv] in
  let args := if negb focus then args ++ ["-d"] else args in
  _ <- Println ["MOVE PANE FROM "; paneTarget pv; "TO"; windowTarget tv] ;;
  '(_, _, err) <- runCmd args ;;
  tv <- load pane_target ;;
  _ <- write p (set_WindowName (WindowName tv)) ;;
  tv <- load pane_target ;;
  _ <- write p (set_WindowId (WindowId tv)) ;;
  ret err.

Definition GetCurrentSize (p : Pane) : M (Z * Z * option error) :=
  let args := ["display-message"; "-p"; "-t"; paneTarget p;
               "-F"; "#{pane_width}x#{pane_height}"] in
  '(out, _, err) <- runCmd args ;;
  match err with
  | Some e => ret (0, 0, Some e)
  | None =>
      out <- lift (slice_to out (len out - 1)) ;;
      let data := SplitN out "x" 2 in
      d0 <- lift (index data 0) ;;
      let w := fst (Atoi d0) in
      d1 <- lift (index data 1) ;;
      let h := fst (Atoi d1) in
      ret (w, h, None)
  end.

Definition Capture (p : Pane) : M (string * option error) :=
  let args := ["capture-pane"; "-t"; paneTarget p; "-p"] in
  '(out, stdErr, err) <- runCmd args ;;
  match err with
  | Some e => ret (stdErr, Some e)
  | None => ret (out, None)
  end.

(** [err.Error()], the text of an error value; [%v] prints it. *)
Variable ErrorText : error -> string.

(** [RunCommand] (lines 199-212) on the pane its receiver points to; the
    error is [fmt.Errorf("%v: %s", err, stdErr)]. *)
Definition RunCommand (p : Pane) (command : string) : M (option errorString) :=
  let args := ["send-keys"; "-t"; paneTarget p; command; "C-m"] in
  '(_, stdErr, err) <- runCmd args ;;
  match err with
  | Some e => ret (Some (Errorf (ErrorText e ++ ": " ++ stdErr)%string))
  | None => ret None
  end.

(** [RunCommand] as a method on a [*Pane]: the receiver is dereferenced
    (line 203) before the runner is called. *)
Definition RunCommandOn (p : ptr) (command : string) : M (option errorString) :=
  pv <- load p ;;
  RunCommand pv command.

End Operations.

Arguments Done {World A} a st.
Arguments Crash {World A} why.
Arguments world {World} s.
Arguments calls {World} s.
Arguments console {World} s.
Arguments store {World} s.
Arguments called {World} args w st.

(* ================================================================= *)
(** ** A scripted runner: it answers the calls with a list of replies *)

Definition Script : Type := list reply.

Definition scripted (args : list string) (w : Script) : reply * Script :=
  match w with
  | r :: w' => (r, w')
  | [] => (("", "", Some (ExecError "exit status 1")), [])
  end.

Definition fresh (w : Script) (panes : list Pane) : state Script :=
  {| world := w; calls := []; console := []; store := nth_error panes |}.

(* ================================================================= *)
(** ** The listing text, as the multiplexer writes it *)

(** The seven fields of a listing line, before decoding. *)
Record row : Type := {
  session_id : string;
  session_name : string;
  window_id : string;
  window_name : string;
  window_index : string;
  pane_id : string;
  pane_active : bool
}.

Definition flag (b : bool) : string := if b then "1" else "0".

(** [$<sessionID>:<sessionName>:@<windowID>:<windowName>:<windowIndex>:%<paneID>:<0|1>] *)
Definition render (r : row) : string :=
  "$" ++ session_id r ++ ":" ++ session_name r ++ ":@" ++ window_id r ++ ":"
      ++ window_name r ++ ":" ++ window_index r ++ ":%" ++ pane_id r ++ ":"
      ++ flag (pane_active r).

Definition nonempty (s : string) : bool :=
  match s with EmptyString => false | _ => true end.

(** A non-empty run of decimal digits. *)
Definition numeral (s : string) : bool := nonempty s && all_bytes is_digit s.

(** A name: non-empty, without the delimiter [:] and within one line. *)
Definition name (s : string) : bool :=
  nonempty s && (count_byte colon s =? 0)%nat && (count_byte LF s =? 0)%nat.

Definition well_formed (r : row) : bool :=
  numeral (session_id r) && name (session_name r) && numeral (window_id r)
  && name (window_name r) && numeral (window_index r) && numeral (pane_id r).

(** The number a run of decimal digits denotes. *)
Fixpoint dec_from (n : Z) (s : string) : Z :=
  match s with
  | EmptyString => n
  | String c s' => dec_from (n * 10 + digit_val c) s'
  end.

Definition dec_value (s : string) : Z := dec_from 0 s.

Definition fits (s : string) : bool := dec_value s <=? maxInt.

Definition decodable (r : row) : bool :=
  fits (session_id r) && fits (window_id r) && fits (window_index r)
  && fits (pane_id r).

Definition decode (r : row) : Pane :=
  {| ID := dec_value (pane_id r);
     SessionId := dec_value (session_id r);
     SessionName := session_name r;
     WindowId := dec_value (window_id r);
     WindowName := window_name r;
     WindowIndex := dec_value (window_index r);
     Active := pane_active r |}.

(** The error of the first numeric field of a line, in the order the
    fields are parsed, that [Atoi] rejects. *)
Definition first_failure (r : row) : option error :=
  match snd (Atoi (session_id r)) with
  | Some e => Some e
  | None =>
      match snd (Atoi (window_id r)) with
      | Some e => Some e
      | None =>
          match snd (Atoi (window_index r)) with
          | Some e => Some e
          | None => snd (Atoi (pane_id r))
          end
      end
  end.

(** A line of the listing text: well-formed, or noise. *)
Inductive item : Type :=
| Well (r : row)
| Noise (s : string).

Definition text_of (i : item) : string :=
  match i with
  | Well r => render r
  | Noise s => s
  end.

Definition one_line (s : string) : bool := (count_byte LF s =? 0)%nat.

Definition no_match (s : string) : bool :=
  match FindStringSubmatch re s with
  | [] => true
  | _ => false
  end.

Definition item_ok (i : item) : bool :=
  match i with
  | Well r => well_formed r && decodable r
  | Noise s => one_line s && no_match s
  end.

Fixpoint panes_of (items : list item) : list Pane :=
  match items with
  | [] => []
  | Well r :: rest => decode r :: panes_of rest
  | Noise _ :: rest => panes_of rest
  end.

Fixpoint well_count (items : list item) : nat :=
  match items with
  | [] => O
  | Well _ :: rest => S (well_count rest)
  | Noise _ :: rest => well_count rest
  end.

(** The number of literal [:] a pattern asks for. *)
Fixpoint colons (r : regex) : nat :=
  match r with
  | Lit c => if Ascii.eqb c colon then 1 else 0
  | Cap _ r' => colons r'
  | Cat r1 r2 => colons r1 + colons r2
  | _ => 0
  end.

(** The pattern as one sequence of pieces. *)
Definition pieces : regex :=
  Cat (Lit "$") (Cat (Cap 1 (Plus is_digit)) (Cat (Lit ":")
  (Cat (Cap 2 (Plus dot)) (Cat (Lit ":") (Cat (Lit "@")
  (Cat (Cap 3 (Plus is_digit)) (Cat (Lit ":")
  (Cat (Cap 4 (Plus dot)) (Cat (Lit ":")
  (Cat (Cap 5 (Plus is_digit)) (Cat (Lit ":") (Cat (Lit "%")
  (Cat (Cap 6 (Plus is_digit)) (Cat (Lit ":")
  (Cat (Cap 7 (Class zero_one)) Eps))))))))))))))).

(** The next byte, if any, ends a run of the class [p]. *)
Definition stops (p : ascii -> bool) (v : string) : Prop :=
  match v with
  | EmptyString => True
  | String c _ => p c = false
  end.

(** A text without its last byte. *)
Definition strip_last (s : string) : string := take (String.length s - 1) s.

(** Lines: texts without a line terminator. *)
Definition lines_ok (ls : list string) : Prop :=
  Forall (fun l => count_byte LF l = 0%nat) ls.

(** [line] is matched by the pattern, and the submatches are the fields
    of [r]. *)
Definition matched (line : string) (r : row) : Prop :=
  FindStringSubmatch re line
  = [ render r; session_id r; session_name r; window_id r; window_name r;
      window_index r; pane_id r; flag (pane_active r) ].

(** Whether [s] begins with a minus sign. *)
Definition negative (s : string) : bool :=
  match s with
  | String c _ => Ascii.eqb c "-"
  | EmptyString => false
  end.

(** The values of an [int]. *)
Definition int_range (n : Z) : Prop := minInt <= n <= maxInt.

(** What holds of every pane a listing yields. *)
Definition pane_listed (p : Pane) : Prop :=
  0 <= SessionId p <= maxInt /\ 0 <= WindowId p <= maxInt
  /\ 0 <= WindowIndex p <= maxInt /\ 0 <= ID p <= maxInt
  /\ nonempty (SessionName p) = true /\ nonempty (WindowName p) = true
  /\ count_byte LF (SessionName p) = 0%nat
  /\ count_byte LF (WindowName p) = 0%nat.

(** A numeral as the multiplexer writes it: no leading zero. *)
Definition canonical (s : string) : bool :=
  numeral s
  && match s with
     | String c (String _ _) => negb (Ascii.eqb c "0")
     | _ => true
     end.

Fixpoint rows_of (items : list item) : list row :=
  match items with
  | [] => []
  | Well r :: rest => r :: rows_of rest
  | Noise _ :: rest => rows_of rest
  end.

(** The text of a target, from the fields of a listing line. *)
Definition listed_pane_target (r : row) : string :=
  session_name r ++ ":" ++ window_id r ++ "." ++ pane_id r.

Definition listed_window_target (r : row) : string :=
  session_name r ++ ":" ++ window_id r.

(** A name as the pattern sees it: non-empty and within one line. *)
Definition dotted (s : string) : bool := nonempty s && all_bytes dot s.

(** Whether [s] begins with [@]. *)
Definition at_head (s : string) : bool :=
  match s with
  | String c _ => Ascii.eqb c "@"
  | EmptyString => false
  end.

(** Whether [:@] occurs nowhere in [s]. *)
Fixpoint colon_at_free (s : string) : bool :=
  match s with
  | EmptyString => true
  | String c s' => negb (Ascii.eqb c colon && at_head s') && colon_at_free s'
  end.

(** A record the pattern reads back as it is: the session name is any
    name within one line; the window name, within one line too, does not
    begin with [@] and has no [:@] inside. *)
Definition readable (r : row) : bool :=
  numeral (session_id r) && dotted (session_name r) && numeral (window_id r)
  && dotted (window_name r) && colon_at_free (String colon (window_name r))
  && numeral (window_index r) && numeral (pane_id r).

(** A line of the listing text with a record inside, or another line. *)
Inductive entry : Type :=
| Record_in (pre : string) (r : row) (post : string)
| Other (s : string).

Definition entry_text (e : entry) : string :=
  match e with
  | Record_in pre r post => pre ++ render r ++ post
  | Other s => s
  end.

Definition entry_ok (e : entry) : bool :=
  match e with
  | Record_in pre r post =>
      readable r && decodable r
      && (count_byte "$" pre =? 0)%nat && one_line pre
      && (count_byte colon post =? 0)%nat && one_line post
  | Other s => one_line s && no_match s
  end.

Fixpoint entries_panes (es : list entry) : list Pane :=
  match es with
  | [] => []
  | Record_in _ r _ :: rest => decode r :: entries_panes rest
  | Other _ :: rest => entries_panes rest
  end.

(** Two records on one line, read as one: the session name runs from the
    first record's name to the second record's name. *)
Definition merged (r1 : row) (mid : string) (r2 : row) : row :=
  {| session_id := session_id r1;
     session_name :=
       session_name r1 ++ ":@" ++ window_id r1 ++ ":" ++ window_name r1 ++ ":"
         ++ window_index r1 ++ ":%" ++ pane_id r1 ++ ":" ++ flag (pane_active r1)
         ++ mid ++ "$" ++ session_id r2 ++ ":" ++ session_name r2;
     window_id := window_id r2;
     window_name := window_name r2;
     window_index := window_index r2;
     pane_id := pane_id r2;
     pane_active := pane_active r2 |}.

(* ================================================================= *)
(** ** Sample data *)

Definition main_pane : Pane :=
  {| ID := 1; SessionId := 1; SessionName := "main"; WindowId := 2;
     WindowName := "shell"; WindowIndex := 0; Active := true |}.

Definition logs_pane : Pane :=
  {| ID := 0; SessionId := 1; SessionName := "main"; WindowId := 5;
     WindowName := "logs"; WindowIndex := 3; Active := false |}.

(** [$1:main:@1:shell:0:%0:1] *)
Definition row0 : row :=
  {| session_id := "1"; session_name := "main"; window_id := "1";
     window_name := "shell"; window_index := "0"; pane_id := "0";
     pane_active := true |}.

(** [$1:main:@1:shell:0:%1:0] *)
Definition row1 : row :=
  {| session_id := "1"; session_name := "main"; window_id := "1";
     window_name := "shell"; window_index := "0"; pane_id := "1";
     pane_active := false |}.

(** [$1:main:@99999999999999999999:shell:0:%2:0]: a window id too large
    for [int]. *)
Definition big_row : row :=
  {| session_id := "1"; session_name := "main";
     window_id := "99999999999999999999";
     window_name := "shell"; window_index := "0"; pane_id := "2";
     pane_active := false |}.

Definition sample_items : list item :=
  [ Well row0; Noise "no server running"; Well row1; Noise "" ].

Definition work_pane : Pane :=
  {| ID := 3; SessionId := 2; SessionName := "work"; WindowId := 7;
     WindowName := "build"; WindowIndex := 1; Active := true |}.

(** [$3:dev:api:@12:ssh:host:4:%7:1] *)
Definition colon_row : row :=
  {| session_id := "3"; session_name := "dev:api"; window_id := "12";
     window_name := "ssh:host"; window_index := "4"; pane_id := "7";
     pane_active := true |}.

Definition sample_entries : list entry :=
  [ Record_in "tmux: " colon_row " (attached)"; Other "";
    Record_in "" row1 "0" ].

(** A text for the errors of the scripted runner. *)
Definition exec_text (e : error) : string :=
  match e with
  | ExecError msg => msg
  | NumError fn num _ => "strconv." ++ fn ++ ": parsing " ++ num
  end.

(* ================================================================= *)
(** * Properties *)

(** ** Byte strings *)

Local Open Scope nat_scope.

Lemma app_assoc_s (a b c : string) : ((a ++ b) ++ c = a ++ (b ++ c))%string.
Proof. induction a as [|x a IH]; simpl; [reflexivity | now rewrite IH]. Qed.

Lemma app_empty_r (a : string) : (a ++ "")%string = a.
Proof. induction a as [|x a IH]; simpl; [reflexivity | now rewrite IH]. Qed.

Lemma length_app (a b : string) :
  String.length (a ++ b) = String.length a + String.length b.
Proof. induction a as [|x a IH]; simpl; [reflexivity | now rewrite IH]. Qed.

Lemma take_app (u v : string) : take (String.length u) (u ++ v) = u.
Proof. induction u as [|x u IH]; simpl; [now destruct v | now rewrite IH]. Qed.

Lemma drop_app_cons (u v : string) (c : ascii) :
  drop (S (String.length u)) (u ++ String c v) = v.
Proof. induction u as [|x u IH]; simpl; [reflexivity | exact IH]. Qed.

Lemma consumed_app (u v : string) : consumed (u ++ v) v = u.
Proof.
  unfold consumed. rewrite length_app.
  replace (String.length u + String.length v - String.length v)
    with (String.length u) by lia.
  apply take_app.
Qed.

Lemma consumed_all (s : string) : consumed s "" = s.
Proof. rewrite <- (app_empty_r s) at 1. apply consumed_app. Qed.

Lemma count_byte_app (c : ascii) (u v : string) :
  count_byte c (u ++ v) = count_byte c u + count_byte c v.
Proof.
  induction u as [|x u IH]; simpl; [reflexivity|].
  destruct (Ascii.eqb x c); simpl; now rewrite IH.
Qed.

Lemma all_bytes_app (p : ascii -> bool) (u v : string) :
  all_bytes p (u ++ v) = all_bytes p u && all_bytes p v.
Proof.
  induction u as [|x u IH]; simpl; [reflexivity|].
  now rewrite IH, andb_assoc.
Qed.

(** Two ways to cut one string: one cut is inside the other's first part. *)
Lemma app_eq_app (u v x w : string) :
  (u ++ v = x ++ w)%string ->
  (exists t, x = (u ++ t)%string /\ v = (t ++ w)%string)
  \/ (exists a t, u = (x ++ String a t)%string /\ w = (String a t ++ v)%string).
Proof.
  revert x. induction u as [|c u IH]; intros x H; simpl in H.
  - left. exists x. split; [reflexivity | exact H].
  - destruct x as [|d x]; simpl in H.
    + right. exists c, u. split; [reflexivity | now rewrite <- H].
    + injection H as -> H. destruct (IH _ H) as [[t [-> ->]] | [a [t [-> ->]]]].
      * left. exists t. split; reflexivity.
      * right. exists a, t. split; reflexivity.
Qed.

Lemma digit_not_colon (c : ascii) : is_digit c = true -> Ascii.eqb c colon = false.
Proof.
  intros H. destruct (Ascii.eqb_spec c colon) as [-> | _]; [discriminate H | reflexivity].
Qed.

Lemma digits_no_colon (s : string) :
  all_bytes is_digit s = true -> count_byte colon s = 0.
Proof.
  induction s as [|c s IH]; simpl; [reflexivity|].
  intros H. apply andb_prop in H as [Hc Hs].
  rewrite (digit_not_colon _ Hc). auto.
Qed.

(** ** [strings.Split] and [strings.Join] on lines *)

Lemma IndexByte_none (s : string) (sep : ascii) :
  count_byte sep s = 0 -> IndexByte s sep = None.
Proof.
  induction s as [|c s IH]; simpl; [reflexivity|].
  destruct (Ascii.eqb c sep); [discriminate|].
  intros H. now rewrite IH.
Qed.

Lemma IndexByte_first (u v : string) (sep : ascii) :
  count_byte sep u = 0 ->
  IndexByte (u ++ String sep v) sep = Some (String.length u).
Proof.
  induction u as [|c u IH]; simpl.
  - now rewrite Ascii.eqb_refl.
  - destruct (Ascii.eqb c sep); [discriminate|].
    intros H. now rewrite IH.
Qed.

Lemma Split_one (s : string) (sep : ascii) :
  count_byte sep s = 0 -> Split s sep = [s].
Proof. intros H. unfold Split. now rewrite H. Qed.

Lemma Split_cons (u v : string) (sep : ascii) :
  count_byte sep u = 0 ->
  Split (u ++ String sep v) sep = u :: Split v sep.
Proof.
  intros H. unfold Split.
  assert (E : count_byte sep (u ++ String sep v) = S (count_byte sep v)).
  { rewrite count_byte_app, H. simpl. now rewrite Ascii.eqb_refl. }
  rewrite E. cbn [genSplit].
  rewrite (IndexByte_first _ _ _ H), take_app, drop_app_cons. reflexivity.
Qed.

Lemma Split_Join (l : string) (ls : list string) :
  lines_ok (l :: ls) -> Split (Join (l :: ls) (String LF "")) LF = l :: ls.
Proof.
  revert l. induction ls as [|l' ls IH]; intros l H.
  - simpl. apply Split_one. now inversion H.
  - inversion H as [|? ? Hl Hls]; subst.
    change (Join (l :: l' :: ls) (String LF ""))
      with (l ++ String LF (Join (l' :: ls) (String LF "")))%string.
    rewrite (Split_cons _ _ _ Hl). f_equal. apply IH. exact Hls.
Qed.

(** ** [strconv.Atoi] on decimal numerals *)

Local Open Scope Z_scope.

Lemma digit_val_range (c : ascii) :
  is_digit c = true -> 0 <= digit_val c <= 9.
Proof.
  unfold is_digit, digit_val. intros H.
  apply andb_prop in H as [H1 H2]. lia.
Qed.

Lemma digit_not_sign (c : ascii) :
  is_digit c = true -> Ascii.eqb c "+" = false /\ Ascii.eqb c "-" = false.
Proof.
  intros H. split.
  - destruct (Ascii.eqb_spec c "+") as [-> | _]; [discriminate H | reflexivity].
  - destruct (Ascii.eqb_spec c "-") as [-> | _]; [discriminate H | reflexivity].
Qed.

Lemma dec_from_ge (s : string) (n : Z) :
  all_bytes is_digit s = true -> 0 <= n -> n <= dec_from n s.
Proof.
  revert n. induction s as [|c s IH]; simpl; intros n H Hn; [lia|].
  apply andb_prop in H as [Hc Hs].
  pose proof (digit_val_range _ Hc).
  specialize (IH (n * 10 + digit_val c) Hs). lia.
Qed.

Lemma maxUint64_eq : maxUint64 = 18446744073709551615.
Proof. reflexivity. Qed.

Lemma maxInt_eq : maxInt = 9223372036854775807.
Proof. reflexivity. Qed.

Lemma ParseUint_loop_numeral (s : string) (n : Z) :
  all_bytes is_digit s = true -> 0 <= n -> dec_from n s <= maxUint64 ->
  ParseUint_loop s n = (dec_from n s, None).
Proof.
  revert n. induction s as [|c s IH]; simpl; intros n H Hn Hmax; [reflexivity|].
  apply andb_prop in H as [Hc Hs]. rewrite Hc.
  pose proof (digit_val_range _ Hc) as Hd.
  assert (Hstep : n * 10 + digit_val c <= maxUint64).
  { etransitivity; [|exact Hmax]. apply dec_from_ge; [exact Hs | lia]. }
  rewrite maxUint64_eq in *.
  change (2 ^ 64) with 18446744073709551616.
  change (18446744073709551615 / 10 + 1) with 1844674407370955162.
  destruct (Z.geb_spec n 1844674407370955162) as [Hbig | _]; [lia|].
  rewrite (Z.mod_small (n * 10 + digit_val c)) by lia.
  destruct (Z.ltb_spec (n * 10 + digit_val c) (n * 10)) as [Hlt | _]; [lia|].
  destruct (Z.gtb_spec (n * 10 + digit_val c) 18446744073709551615) as [Hgt | _]; [lia|].
  simpl. apply IH; [exact Hs | lia | exact Hmax].
Qed.

(** A numeral that fits [int] is parsed to the number it denotes. *)
Lemma Atoi_numeral (s : string) :
  numeral s = true -> fits s = true -> Atoi s = (dec_value s, None).
Proof.
  unfold numeral, fits, dec_value. intros H Hfit.
  apply andb_prop in H as [Hne Hdig].
  apply Z.leb_le in Hfit. rewrite maxInt_eq in Hfit.
  destruct s as [|c s]; [discriminate Hne|].
  assert (Hc : is_digit c = true) by (simpl in Hdig; now apply andb_prop in Hdig).
  destruct (digit_not_sign _ Hc) as [Hplus Hminus].
  unfold Atoi, ParseInt. rewrite Hplus, Hminus. cbn [orb negb andb].
  unfold ParseUint.
  rewrite (ParseUint_loop_numeral _ 0 Hdig) by (rewrite ?maxUint64_eq; lia).
  change (2 ^ (intSize - 1)) with 9223372036854775808.
  destruct (Z.geb_spec (dec_from 0 (String c s)) 9223372036854775808); [lia|].
  reflexivity.
Qed.

(** ** The matching engine *)

Local Open Scope nat_scope.

Section Greedy.

Context {R : Type} (p : ascii -> bool) (k : string -> option R).

Lemma plus_greedy_inv (s : string) (res : R) :
  plus_greedy p s k = Some res ->
  exists u v, s = (u ++ v)%string /\ nonempty u = true
              /\ all_bytes p u = true /\ k v = Some res.
Proof.
  induction s as [|c s IH]; simpl; [discriminate|].
  destruct (p c) eqn:Hc; [|discriminate].
  destruct (plus_greedy p s k) as [r|] eqn:Hrec.
  - intros H. injection H as ->.
    destruct (IH eq_refl) as (u & v & -> & _ & Hu & Hk).
    exists (String c u), v. simpl. rewrite Hc, Hu. auto.
  - intros H. exists (String c ""), s. simpl. rewrite Hc. auto.
Qed.

Lemma plus_greedy_none (s : string) :
  (forall a t v, s = (String a t ++ v)%string -> k v = None) ->
  plus_greedy p s k = None.
Proof.
  induction s as [|c s IH]; simpl; intros H; [reflexivity|].
  destruct (p c); [|reflexivity].
  rewrite IH.
  - apply (H c EmptyString s). reflexivity.
  - intros a t v ->. apply (H c (String a t) v). reflexivity.
Qed.

(** The run [u] is taken whole when nothing longer leads to a match. *)
Lemma plus_greedy_found (u v : string) (res : R) :
  all_bytes p u = true -> nonempty u = true ->
  k v = Some res -> plus_greedy p v k = None ->
  plus_greedy p (u ++ v) k = Some res.
Proof.
  intros Hu Hne Hk Hnone. induction u as [|c u IH]; [discriminate Hne|].
  simpl in Hu. apply andb_prop in Hu as [Hc Hu]. simpl. rewrite Hc.
  destruct u as [|d u].
  - simpl. now rewrite Hnone.
  - now rewrite (IH Hu eq_refl).
Qed.

End Greedy.

Lemma exec_colons (r : regex) :
  forall s cs k res,
    exec r s cs k = Some res ->
    exists s' cs', k s' cs' = Some res
                   /\ colons r + count_byte colon s' <= count_byte colon s.
Proof.
  induction r as [|c|p|p|i r IH|r1 IH1 r2 IH2]; intros s cs k res H; simpl in H.
  - exists s, cs. simpl. auto.
  - destruct s as [|a s]; [discriminate|].
    destruct (Ascii.eqb_spec a c) as [-> | _]; [|discriminate].
    exists s, cs. simpl. split; [exact H|].
    destruct (Ascii.eqb c colon); lia.
  - destruct s as [|a s]; [discriminate|].
    destruct (p a); [|discriminate].
    exists s, cs. simpl. split; [exact H|].
    destruct (Ascii.eqb a colon); lia.
  - apply plus_greedy_inv in H as (u & v & -> & _ & _ & Hk).
    exists v, cs. simpl. rewrite count_byte_app. split; [exact Hk | lia].
  - apply IH in H as (s' & cs' & Hk & Hc). simpl. eauto.
  - apply IH1 in H as (s1 & cs1 & H1 & Hc1).
    apply IH2 in H1 as (s2 & cs2 & H2 & Hc2).
    exists s2, cs2. simpl. split; [exact H2 | lia].
Qed.

(** A text with fewer [:] than the pattern asks for has no match. *)
Lemma exec_short (r : regex) (s : string) (cs : caps) k :
  count_byte colon s < colons r -> exec r s cs k = None.
Proof.
  intros Hlt. destruct (exec r s cs k) as [res|] eqn:H; [|reflexivity].
  apply exec_colons in H as (s' & cs' & _ & Hc). lia.
Qed.

Lemma search_short (r : regex) (n : nat) (s : string) :
  count_byte colon s < colons r -> search r n s = None.
Proof.
  induction s as [|c s IH]; intros Hlt; simpl.
  - unfold match_here. now rewrite exec_short.
  - unfold match_here. rewrite exec_short by exact Hlt.
    apply IH. simpl in Hlt. destruct (Ascii.eqb c colon); lia.
Qed.

Lemma set_cap_length (i : nat) (v : string) (cs : caps) :
  List.length (set_cap i v cs) = List.length cs.
Proof.
  revert i. induction cs as [|c cs IH]; intros [|i]; simpl; auto.
Qed.

Lemma exec_length (n : nat) (r : regex) :
  forall s cs k res,
    (forall s' cs' res', List.length cs' = n -> k s' cs' = Some res' ->
                         List.length res' = n) ->
    List.length cs = n -> exec r s cs k = Some res -> List.length res = n.
Proof.
  induction r as [|c|p|p|i r IH|r1 IH1 r2 IH2]; intros s cs k res Hk Hcs H; simpl in H.
  - eauto.
  - destruct s as [|a s]; [discriminate|].
    destruct (Ascii.eqb a c); [eauto | discriminate].
  - destruct s as [|a s]; [discriminate|].
    destruct (p a); [eauto | discriminate].
  - apply plus_greedy_inv in H as (u & v & _ & _ & _ & H). eauto.
  - refine (IH _ _ _ _ _ Hcs H).
    intros s' cs' res' Hl Hr. apply (Hk _ _ _ (eq_trans (set_cap_length _ _ _) Hl) Hr).
  - refine (IH1 _ _ _ _ _ Hcs H).
    intros s' cs' res' Hl Hr. apply (IH2 _ _ _ _ Hk Hl Hr).
Qed.

Lemma search_length (r : regex) (n : nat) (s : string) (cs : caps) :
  search r n s = Some cs -> List.length cs = S n.
Proof.
  induction s as [|c s IH]; simpl.
  - destruct (match_here r n "") as [cs'|] eqn:H; [|discriminate].
    intros E. injection E as <-. unfold match_here in H.
    apply (exec_length (S n)) in H; [exact H | | apply repeat_length].
    intros s' cs1 res' Hl E. injection E as <-.
    destruct cs1; simpl in *; [discriminate Hl | exact Hl].
  - destruct (match_here r n (String c s)) as [cs'|] eqn:H; [|exact IH].
    intros E. injection E as <-. unfold match_here in H.
    apply (exec_length (S n)) in H; [exact H | | apply repeat_length].
    intros s' cs1 res' Hl E. injection E as <-.
    destruct cs1; simpl in *; [discriminate Hl | exact Hl].
Qed.

(** [FindStringSubmatch] answers [nil] or the match with all its groups. *)
Lemma FindStringSubmatch_length (rx : Regexp) (s : string) :
  FindStringSubmatch rx s = []
  \/ List.length (FindStringSubmatch rx s) = S (numSubexp rx).
Proof.
  unfold FindStringSubmatch.
  destruct (search (prog rx) (numSubexp rx) s) as [cs|] eqn:H; [|now left].
  right. exact (search_length _ _ _ _ H).
Qed.

(** Stepping through a sequence of pattern pieces. *)

Lemma exec_lit (c : ascii) (r : regex) (s : string) (cs : caps) k :
  exec (Cat (Lit c) r) (String c s) cs k = exec r s cs k.
Proof. simpl. now rewrite Ascii.eqb_refl. Qed.

(** A group over a run that the next byte ends. *)
Lemma exec_cap_stop (i : nat) (p : ascii -> bool) (r : regex)
      (u v : string) (cs : caps) k (res : caps) :
  all_bytes p u = true -> nonempty u = true -> stops p v ->
  exec r v (set_cap i u cs) k = Some res ->
  exec (Cat (Cap i (Plus p)) r) (u ++ v) cs k = Some res.
Proof.
  intros Hu Hne Hstop H. cbn [exec].
  apply plus_greedy_found; [exact Hu | exact Hne | |].
  - now rewrite consumed_app.
  - destruct v as [|c v]; simpl; [reflexivity|]. simpl in Hstop. now rewrite Hstop.
Qed.

(** A group over a run followed by the last [:] that leaves enough [:] for
    the rest of the pattern: a longer run cannot lead to a match. *)
Lemma exec_cap_last (i : nat) (p : ascii -> bool) (r : regex)
      (u v : string) (cs : caps) k (res : caps) :
  all_bytes p u = true -> nonempty u = true ->
  count_byte colon v < colons r ->
  exec r (String colon v) (set_cap i u cs) k = Some res ->
  exec (Cat (Cap i (Plus p)) r) (u ++ String colon v) cs k = Some res.
Proof.
  intros Hu Hne Hlt H. cbn [exec].
  apply plus_greedy_found; [exact Hu | exact Hne | |].
  - now rewrite consumed_app.
  - apply plus_greedy_none. intros a t w E.
    apply exec_short. simpl in E. injection E as _ E.
    rewrite E, count_byte_app in Hlt. lia.
Qed.

Lemma one_line_dot (s : string) :
  count_byte LF s = 0 -> all_bytes dot s = true.
Proof.
  induction s as [|c s IH]; simpl; [reflexivity|]. unfold dot at 1.
  destruct (Ascii.eqb c LF); [discriminate|]. exact IH.
Qed.

(** ** The pattern on the lines of the listing *)

Lemma exec_pieces (s : string) (cs : caps) k :
  exec (prog re) s cs k = exec pieces s cs k.
Proof. reflexivity. Qed.

Lemma flag_colons (b : bool) : count_byte colon (flag b) = 0.
Proof. now destruct b. Qed.

Lemma numeral_inv (s : string) :
  numeral s = true ->
  nonempty s = true /\ all_bytes is_digit s = true /\ count_byte colon s = 0.
Proof.
  unfold numeral. intros H. apply andb_prop in H as [H1 H2].
  auto using digits_no_colon.
Qed.

Lemma name_inv (s : string) :
  name s = true ->
  nonempty s = true /\ all_bytes dot s = true /\ count_byte colon s = 0
  /\ count_byte LF s = 0.
Proof.
  unfold name. intros H. apply andb_prop in H as [H H3].
  apply andb_prop in H as [H1 H2].
  apply Nat.eqb_eq in H2, H3. auto using one_line_dot.
Qed.

Lemma search_hit (r : regex) (n : nat) (s : string) (cs : caps) :
  match_here r n s = Some cs -> search r n s = Some cs.
Proof. intros H. destruct s; cbn [search]; now rewrite H. Qed.

Lemma exec_pieces_render (r : row) (cs : caps) k (res : caps) :
  well_formed r = true ->
  k EmptyString
    (set_cap 7 (flag (pane_active r)) (set_cap 6 (pane_id r)
      (set_cap 5 (window_index r) (set_cap 4 (window_name r)
        (set_cap 3 (window_id r) (set_cap 2 (session_name r)
          (set_cap 1 (session_id r) cs))))))) = Some res ->
  exec pieces (render r) cs k = Some res.
Proof.
  unfold well_formed. intros H Hk.
  do 5 (apply andb_prop in H as [H ?]).
  destruct r as [sid sname wid wname widx pid act];
    cbn [session_id session_name window_id window_name window_index pane_id
         pane_active] in *.
  destruct (numeral_inv _ H) as (Hsid1 & Hsid2 & Hsid3).
  destruct (name_inv sname) as (Hsn1 & Hsn2 & Hsn3 & _); [assumption|].
  destruct (numeral_inv wid) as (Hwid1 & Hwid2 & Hwid3); [assumption|].
  destruct (name_inv wname) as (Hwn1 & Hwn2 & Hwn3 & _); [assumption|].
  destruct (numeral_inv widx) as (Hwix1 & Hwix2 & Hwix3); [assumption|].
  destruct (numeral_inv pid) as (Hpid1 & Hpid2 & Hpid3); [assumption|].
  pose proof (flag_colons act) as Hflag.
  unfold render, pieces; cbn [session_id session_name window_id
    window_name window_index pane_id pane_active append].
  rewrite exec_lit.
  apply exec_cap_stop; [assumption | assumption | reflexivity |].
  rewrite exec_lit.
  apply exec_cap_last; [assumption | assumption | |].
  { cbn [colons count_byte Ascii.eqb Bool.eqb colon].
    repeat (rewrite count_byte_app; cbn [count_byte Ascii.eqb Bool.eqb colon]).
    rewrite Hwid3, Hwn3, Hwix3, Hpid3, Hflag. simpl. lia. }
  rewrite !exec_lit.
  apply exec_cap_stop; [assumption | assumption | reflexivity |].
  rewrite exec_lit.
  apply exec_cap_last; [assumption | assumption | |].
  { cbn [colons count_byte Ascii.eqb Bool.eqb colon].
    repeat (rewrite count_byte_app; cbn [count_byte Ascii.eqb Bool.eqb colon]).
    rewrite Hwix3, Hpid3, Hflag. simpl. lia. }
  rewrite exec_lit.
  apply exec_cap_stop; [assumption | assumption | reflexivity |].
  rewrite !exec_lit.
  apply exec_cap_stop; [assumption | assumption | reflexivity |].
  rewrite exec_lit.
  destruct act; exact Hk.
Qed.

(** On a well-formed line the pattern matches the whole line, and the
    groups are the fields. *)
Lemma FindStringSubmatch_render (r : row) :
  well_formed r = true ->
  FindStringSubmatch re (render r)
  = [ render r; session_id r; session_name r; window_id r; window_name r;
      window_index r; pane_id r; flag (pane_active r) ].
Proof.
  intros H. unfold FindStringSubmatch.
  assert (Hm : match_here (prog re) (numSubexp re) (render r)
               = Some [ render r; session_id r; session_name r; window_id r;
                        window_name r; window_index r; pane_id r;
                        flag (pane_active r) ]).
  { unfold match_here. rewrite exec_pieces.
    apply exec_pieces_render; [exact H|].
    rewrite consumed_all. reflexivity. }
  now rewrite (search_hit _ _ _ _ Hm).
Qed.

Lemma search_miss (r : regex) (n : nat) (c : ascii) (s : string) :
  match_here r n (String c s) = None ->
  search r n (String c s) = search r n s.
Proof. intros H. cbn [search]. now rewrite H. Qed.

Lemma match_here_not_dollar (n : nat) (c : ascii) (s : string) :
  Ascii.eqb c "$" = false -> match_here (prog re) n (String c s) = None.
Proof.
  intros H. unfold match_here. rewrite exec_pieces. unfold pieces.
  cbn [exec]. now rewrite H.
Qed.

(** The search passes over a text without [$]. *)
Lemma search_skip (n : nat) (x w : string) :
  count_byte "$" x = 0 ->
  search (prog re) n (x ++ w) = search (prog re) n w.
Proof.
  induction x as [|c x IH]; cbn [append count_byte]; [reflexivity|].
  destruct (Ascii.eqb c "$") eqn:Hc; [discriminate|]. intros H.
  rewrite search_miss by (now apply match_here_not_dollar). auto.
Qed.

(** A [$] followed by something that is not a numeral before the next [:]
    does not start a match. *)
Lemma match_here_non_numeral (n : nat) (x rest : string) :
  numeral x = false -> count_byte colon x = 0 ->
  match_here (prog re) n (String "$" (x ++ String colon rest)) = None.
Proof.
  intros Hx Hcol. unfold match_here. rewrite exec_pieces. unfold pieces.
  rewrite exec_lit. cbn [exec].
  match goal with |- ?lhs = None => destruct lhs as [res|] eqn:E end;
    [exfalso | reflexivity].
  apply plus_greedy_inv in E as (u & v & Huv & Hne & Hu & Hk).
  destruct v as [|a v]; [discriminate Hk|].
  destruct (Ascii.eqb_spec a ":") as [-> | _]; [clear Hk | discriminate Hk].
  symmetry in Huv.
  apply app_eq_app in Huv as [(t & Hx' & Ht) | (a & t & Hu' & Hw)].
  - destruct t as [|b t]; simpl in Ht.
    + rewrite app_empty_r in Hx'. subst u.
      unfold numeral in Hx. rewrite Hne, Hu in Hx. discriminate Hx.
    + injection Ht as <- _. subst x.
      rewrite count_byte_app in Hcol. simpl in Hcol. lia.
  - simpl in Hw. injection Hw as <- _.
    apply (f_equal (all_bytes is_digit)) in Hu'.
    rewrite Hu, all_bytes_app in Hu'. cbn [all_bytes] in Hu'.
    change (is_digit colon) with false in Hu'.
    rewrite andb_false_r in Hu'. discriminate Hu'.
Qed.

(** A line whose session-id field is not a numeral has no match. *)
Lemma FindStringSubmatch_non_numeric (x rest : string) :
  numeral x = false -> count_byte "$" x = 0 -> count_byte colon x = 0 ->
  count_byte colon rest <= 5 ->
  FindStringSubmatch re ("$" ++ x ++ ":" ++ rest) = [].
Proof.
  intros Hx Hdollar Hcol Hrest. unfold FindStringSubmatch.
  cbn [append numSubexp].
  rewrite search_miss by (now apply match_here_non_numeral).
  rewrite search_skip by exact Hdollar.
  rewrite search_miss by (now apply match_here_not_dollar).
  rewrite search_short; [reflexivity|].
  change (colons (prog re)) with 6. lia.
Qed.

Lemma Split_Join_lines (ls : list string) :
  ls <> [] -> lines_ok ls -> Split (Join ls (String LF "")) LF = ls.
Proof. destruct ls as [|l ls]; [contradiction | intros _; apply Split_Join]. Qed.

(** ** One line of the listing *)

Lemma parseLine_skip (line : string) (panes : list Pane) :
  FindStringSubmatch re line = [] -> parseLine line panes = Ret (inr panes).
Proof. intros H. unfold parseLine. now rewrite H. Qed.

Lemma flag_eqb (b : bool) : String.eqb (flag b) "1" = b.
Proof. now destruct b. Qed.

Lemma decodable_inv (r : row) :
  decodable r = true ->
  fits (session_id r) = true /\ fits (window_id r) = true
  /\ fits (window_index r) = true /\ fits (pane_id r) = true.
Proof.
  unfold decodable. intros H. do 3 (apply andb_prop in H as [H ?]). auto.
Qed.

Lemma well_formed_inv (r : row) :
  well_formed r = true ->
  numeral (session_id r) = true /\ name (session_name r) = true
  /\ numeral (window_id r) = true /\ name (window_name r) = true
  /\ numeral (window_index r) = true /\ numeral (pane_id r) = true.
Proof.
  unfold well_formed. intros H. do 5 (apply andb_prop in H as [H ?]).
  repeat split; assumption.
Qed.

(** A well-formed line whose numerals fit [int] adds its pane. *)
Lemma parseLine_well (r : row) (panes : list Pane) :
  well_formed r = true -> decodable r = true ->
  parseLine (render r) panes = Ret (inr (panes ++ [decode r])).
Proof.
  intros Hwf Hdec. unfold parseLine.
  rewrite (FindStringSubmatch_render _ Hwf).
  destruct (well_formed_inv _ Hwf) as (N1 & _ & N3 & _ & N5 & N6).
  destruct (decodable_inv _ Hdec) as (F1 & F3 & F5 & F6).
  cbn [List.length Nat.leb paneParts index nth_error obind].
  rewrite (Atoi_numeral _ N1 F1), (Atoi_numeral _ N3 F3),
          (Atoi_numeral _ N5 F5), (Atoi_numeral _ N6 F6).
  cbn [obind]. rewrite flag_eqb. reflexivity.
Qed.

(** No line makes the loop body panic: the indices 1 to 7 exist whenever
    the length test lets the line through. *)
Lemma parseLine_total (line : string) (panes : list Pane) :
  exists step, parseLine line panes = Ret step.
Proof.
  unfold parseLine.
  destruct (FindStringSubmatch_length re line) as [-> | H]; [simpl; eauto|].
  destruct (FindStringSubmatch re line)
    as [|m0 [|m1 [|m2 [|m3 [|m4 [|m5 [|m6 [|m7 [|m8 ms]]]]]]]]];
    try discriminate H.
  cbn [List.length Nat.leb paneParts index nth_error obind].
  destruct (Atoi m1) as [v1 [e1|]]; [eauto|]. cbn [obind].
  destruct (Atoi m3) as [v3 [e3|]]; [eauto|]. cbn [obind].
  destruct (Atoi m5) as [v5 [e5|]]; [eauto|]. cbn [obind].
  destruct (Atoi m6) as [v6 [e6|]]; eauto.
Qed.


(** ** The loop over the lines *)

Lemma numeral_line (s : string) : numeral s = true -> count_byte LF s = 0.
Proof.
  intros Hs. apply andb_prop in Hs as [_ Hs].
  induction s as [|c s IH]; simpl in *; [reflexivity|].
  apply andb_prop in Hs as [Hc Hs].
  destruct (Ascii.eqb_spec c LF) as [-> | _]; [discriminate Hc | auto].
Qed.

Lemma render_line (r : row) : well_formed r = true -> count_byte LF (render r) = 0.
Proof.
  intros H.
  destruct (well_formed_inv _ H) as (N1 & S2 & N3 & S4 & N5 & N6).
  destruct (name_inv _ S2) as (_ & _ & _ & L2).
  destruct (name_inv _ S4) as (_ & _ & _ & L4).
  unfold render. cbn [append count_byte].
  repeat (rewrite count_byte_app; cbn [count_byte]).
  rewrite (numeral_line _ N1), L2, (numeral_line _ N3), L4,
          (numeral_line _ N5), (numeral_line _ N6).
  now destruct (pane_active r).
Qed.

Lemma item_line (i : item) : item_ok i = true -> count_byte LF (text_of i) = 0.
Proof.
  destruct i as [r | s]; simpl; intros H; apply andb_prop in H as [H1 H2].
  - now apply render_line.
  - now apply Nat.eqb_eq.
Qed.

Lemma items_lines (items : list item) :
  forallb item_ok items = true -> lines_ok (map text_of items).
Proof.
  induction items as [|i items IH]; simpl; intros H; [constructor|].
  apply andb_prop in H as [Hi H]. constructor; [now apply item_line | now apply IH].
Qed.

Lemma parseLine_item (i : item) (panes : list Pane) :
  item_ok i = true ->
  parseLine (text_of i) panes
  = Ret (inr (panes ++ panes_of [i])).
Proof.
  destruct i as [r | s]; simpl; intros H; apply andb_prop in H as [H1 H2].
  - now apply parseLine_well.
  - rewrite app_nil_r. apply parseLine_skip.
    unfold no_match in H2. now destruct (FindStringSubmatch re s).
Qed.

Lemma panes_of_app (xs ys : list item) :
  panes_of (xs ++ ys) = panes_of xs ++ panes_of ys.
Proof.
  induction xs as [|[r|s] xs IH]; simpl; [reflexivity | now rewrite IH | exact IH].
Qed.

(** Well-formed lines and noise, then whatever [rest] holds. *)
Lemma parseLines_items (items : list item) (rest : list string) (panes : list Pane) :
  forallb item_ok items = true ->
  parseLines (map text_of items ++ rest) panes
  = parseLines rest (panes ++ panes_of items).
Proof.
  revert panes. induction items as [|i items IH]; intros panes H.
  - simpl. now rewrite app_nil_r.
  - simpl in H. apply andb_prop in H as [Hi H].
    cbn [map List.app parseLines]. rewrite (parseLine_item _ _ Hi). cbn [obind].
    rewrite (IH _ H). change (i :: items) with ([i] ++ items).
    now rewrite panes_of_app, app_assoc.
Qed.

Lemma panes_of_length (items : list item) :
  List.length (panes_of items) = well_count items.
Proof.
  induction items as [|[r|s] items IH]; simpl; auto.
Qed.

(** A line without a match can be left out. *)
Lemma parseLines_skip (pre post : list string) (line : string) (panes : list Pane) :
  FindStringSubmatch re line = [] ->
  parseLines (pre ++ line :: post) panes = parseLines (pre ++ post) panes.
Proof.
  intros H. revert panes. induction pre as [|l pre IH]; intros panes.
  - simpl. now rewrite (parseLine_skip _ _ H).
  - cbn [List.app parseLines].
    destruct (parseLine l panes) as [[e | panes'] | p]; cbn [obind]; auto.
Qed.

(** Once a line is rejected, neither the panes so far nor the later lines
    count. *)
Lemma parseLines_abort (pre post : list string) (line : string) (panes : list Pane) :
  (forall acc, exists e, parseLine line acc = Ret (inl e)) ->
  exists e, parseLines (pre ++ line :: post) panes = Ret ([], Some e).
Proof.
  intros H. revert panes. induction pre as [|l pre IH]; intros panes.
  - destruct (H panes) as [e He]. exists e. simpl. now rewrite He.
  - cbn [List.app parseLines].
    destruct (parseLine_total l panes) as [[e | panes'] ->]; cbn [obind]; eauto.
Qed.

(** ** Target strings *)

Lemma windowTarget_eq (p : Pane) :
  windowTarget p = (SessionName p ++ ":" ++ itoa (WindowId p))%string.
Proof.
  unfold windowTarget. cbn [Sprintf format_verb Ascii.eqb Bool.eqb].
  cbn [append]. now rewrite app_empty_r.
Qed.

Lemma paneTarget_eq (p : Pane) :
  paneTarget p
  = (SessionName p ++ ":" ++ itoa (WindowId p) ++ "." ++ itoa (ID p))%string.
Proof.
  unfold paneTarget. cbn [Sprintf format_verb Ascii.eqb Bool.eqb].
  cbn [append]. now rewrite app_empty_r.
Qed.

(** ** Stripping the last byte *)

Local Open Scope Z_scope.

Lemma slice_to_last (body : string) (c : ascii) :
  slice_to (body ++ String c "") (len (body ++ String c "") - 1) = Ret body.
Proof.
  unfold slice_to, len. rewrite length_app. cbn [String.length].
  replace (Z.of_nat (String.length body + 1) - 1) with (Z.of_nat (String.length body)) by lia.
  destruct (Z.leb_spec 0 (Z.of_nat (String.length body))); [|lia].
  destruct (Z.leb_spec (Z.of_nat (String.length body))
                       (Z.of_nat (String.length body + 1))); [|lia].
  cbn [andb]. now rewrite Nat2Z.id, take_app.
Qed.

Local Open Scope nat_scope.

Lemma last_byte (s : string) :
  s <> EmptyString -> exists body c, s = (body ++ String c "")%string.
Proof.
  induction s as [|a s IH]; intros H; [contradiction|].
  destruct s as [|b s].
  - exists EmptyString, a. reflexivity.
  - destruct IH as (body & c & E); [discriminate|].
    exists (String a body), c. simpl. now rewrite <- E.
Qed.

Lemma strip_last_app (body : string) (c : ascii) :
  strip_last (body ++ String c "") = body.
Proof.
  unfold strip_last. rewrite length_app. cbn [String.length].
  replace (String.length body + 1 - 1) with (String.length body) by lia.
  apply take_app.
Qed.

(** ** [strings.SplitN] at the first [x] *)

Lemma SplitN_first (a b : string) (sep : ascii) :
  count_byte sep a = 0 -> SplitN (a ++ String sep b) sep 2 = [a; b].
Proof.
  intros H. unfold SplitN. rewrite length_app. cbn [String.length].
  replace (Nat.min 1 (String.length a + S (String.length b))) with 1 by lia.
  cbn [genSplit]. now rewrite (IndexByte_first _ _ _ H), take_app, drop_app_cons.
Qed.

Lemma SplitN_none (s : string) (sep : ascii) :
  count_byte sep s = 0 -> SplitN s sep 2 = [s].
Proof.
  intros H. unfold SplitN.
  destruct (Nat.min 1 (String.length s)); cbn [genSplit]; [reflexivity|].
  now rewrite (IndexByte_none _ _ H).
Qed.

Lemma first_sep (s : string) (sep : ascii) :
  count_byte sep s <> 0 ->
  exists a b, s = (a ++ String sep b)%string /\ count_byte sep a = 0.
Proof.
  induction s as [|c s IH]; simpl; intros H; [contradiction|].
  destruct (Ascii.eqb_spec c sep) as [-> | Hne].
  - exists EmptyString, s. auto.
  - destruct (IH H) as (a & b & -> & Ha).
    exists (String c a), b. simpl.
    destruct (Ascii.eqb_spec c sep); [contradiction | auto].
Qed.

(** ** The only failure of [Atoi] on a numeral *)

Lemma ParseUint_loop_digits (s : string) (n : Z) :
  all_bytes is_digit s = true -> snd (ParseUint_loop s n) <> Some ErrSyntax.
Proof.
  revert n. induction s as [|c s IH]; cbn [ParseUint_loop all_bytes];
    intros n H; [cbn [snd]; discriminate|].
  apply andb_prop in H as [Hc Hs]. rewrite Hc.
  destruct (Z.geb n (maxUint64 / 10 + 1)); [cbn [snd]; discriminate|].
  destruct (_ || _)%bool; [cbn [snd]; discriminate | now apply IH].
Qed.

(** A numeral is rejected only for running over [int], and the value
    returned with the error is then the largest [int]. *)
Lemma Atoi_numeral_error (s : string) (v : Z) (e : error) :
  numeral s = true -> Atoi s = (v, Some e) ->
  e = NumError "Atoi" s ErrRange /\ v = maxInt /\ fits s = false.
Proof.
  intros Hnum H.
  assert (Hfit : fits s = false).
  { destruct (fits s) eqn:F; [|reflexivity].
    rewrite (Atoi_numeral _ Hnum F) in H. discriminate H. }
  revert H. unfold numeral in Hnum. apply andb_prop in Hnum as [Hne Hdig].
  destruct s as [|c s]; [discriminate Hne|].
  assert (Hc : is_digit c = true) by (simpl in Hdig; now apply andb_prop in Hdig).
  destruct (digit_not_sign _ Hc) as [Hplus Hminus].
  unfold Atoi, ParseInt. rewrite Hplus, Hminus. cbn [orb negb andb].
  unfold ParseUint.
  pose proof (ParseUint_loop_digits _ 0%Z Hdig) as Hsyn.
  destruct (ParseUint_loop (String c s) 0) as [un [[|]|]]; cbn [snd] in Hsyn;
    [congruence | |];
    destruct (Z.geb un (2 ^ (intSize - 1))); intros H; try discriminate H;
    injection H as <- <-; auto.
Qed.


(** ** [%d] and [Atoi]: the numerals of the targets denote the fields *)

Local Open Scope Z_scope.

Lemma of_uint_acc_dec (l : Decimal.uint) (acc : positive) :
  Z.pos (Pos.of_uint_acc l acc)
  = dec_from (Z.pos acc) (NilEmpty.string_of_uint l).
Proof.
  revert acc. induction l as [|l IH|l IH|l IH|l IH|l IH|l IH|l IH|l IH|l IH|l IH];
    intros acc; cbn [Pos.of_uint_acc NilEmpty.string_of_uint dec_from];
    [reflexivity
    | rewrite IH; f_equal;
      match goal with
      | |- context [digit_val ?c] =>
          let v := eval vm_compute in (digit_val c) in change (digit_val c) with v
      end; lia ..].
Qed.

Lemma of_uint_dec (d : Decimal.uint) :
  Z.of_N (Pos.of_uint d) = dec_value (NilEmpty.string_of_uint d).
Proof.
  unfold dec_value.
  induction d as [|l IH|l IH|l IH|l IH|l IH|l IH|l IH|l IH|l IH|l IH];
    cbn [Pos.of_uint NilEmpty.string_of_uint dec_from Z.of_N];
    [reflexivity | exact IH | apply of_uint_acc_dec ..].
Qed.

Lemma string_of_uint_digits (d : Decimal.uint) :
  all_bytes is_digit (NilEmpty.string_of_uint d) = true.
Proof.
  induction d; cbn [NilEmpty.string_of_uint all_bytes]; [reflexivity | exact IHd ..].
Qed.

Lemma string_of_uint_pos (p : positive) :
  NilZero.string_of_uint (Pos.to_uint p) = NilEmpty.string_of_uint (Pos.to_uint p)
  /\ nonempty (NilEmpty.string_of_uint (Pos.to_uint p)) = true.
Proof.
  pose proof (DecimalPos.Unsigned.to_uint_nonnil p) as H.
  destruct (Pos.to_uint p); [contradiction | split; reflexivity ..].
Qed.

Lemma dec_value_pos (p : positive) :
  dec_value (NilEmpty.string_of_uint (Pos.to_uint p)) = Z.pos p.
Proof.
  now rewrite <- of_uint_dec, DecimalPos.Unsigned.of_to.
Qed.

(** [Atoi] reads back the numeral [%d] writes for an [int]. *)
Lemma Atoi_itoa (n : Z) : minInt <= n <= maxInt -> Atoi (itoa n) = (n, None).
Proof.
  rewrite maxInt_eq. unfold minInt. change (2 ^ (intSize - 1)) with 9223372036854775808.
  intros Hn. destruct n as [|p|p].
  - reflexivity.
  - unfold itoa. cbn [Z.to_int NilZero.string_of_int].
    destruct (string_of_uint_pos p) as [-> Hne].
    rewrite Atoi_numeral.
    + now rewrite dec_value_pos.
    + unfold numeral. now rewrite Hne, string_of_uint_digits.
    + unfold fits. rewrite dec_value_pos, maxInt_eq. now apply Z.leb_le.
  - unfold itoa. cbn [Z.to_int NilZero.string_of_int].
    destruct (string_of_uint_pos p) as [-> Hne].
    unfold Atoi, ParseInt.
    change (Ascii.eqb "-" "+") with false. change (Ascii.eqb "-" "-") with true.
    cbn [orb negb andb]. unfold ParseUint.
    destruct (NilEmpty.string_of_uint (Pos.to_uint p)) as [|c s] eqn:E;
      [discriminate Hne|]. rewrite <- E.
    rewrite ParseUint_loop_numeral;
      [ | apply string_of_uint_digits | lia
        | fold (dec_value (NilEmpty.string_of_uint (Pos.to_uint p)));
          rewrite dec_value_pos, maxUint64_eq; lia ].
    fold (dec_value (NilEmpty.string_of_uint (Pos.to_uint p))).
    rewrite dec_value_pos.
    change (2 ^ (intSize - 1)) with 9223372036854775808.
    destruct (Z.gtb_spec (Z.pos p) 9223372036854775808); [lia | reflexivity].
Qed.

Local Open Scope nat_scope.

Local Open Scope Z_scope.

(** ** [Atoi] on every numeral *)

Lemma dec_from_nonneg (s : string) (n : Z) :
  all_bytes is_digit s = true -> 0 <= n -> 0 <= dec_from n s.
Proof. intros Hs Hn. pose proof (dec_from_ge s n Hs Hn). lia. Qed.

Lemma ParseUint_loop_overflow (s : string) (n : Z) :
  all_bytes is_digit s = true -> 0 <= n <= maxUint64 ->
  maxUint64 < dec_from n s ->
  ParseUint_loop s n = (maxUint64, Some ErrRange).
Proof.
  revert n. induction s as [|c s IH]; cbn [ParseUint_loop all_bytes dec_from];
    intros n H Hn Hover.
  - lia.
  - apply andb_prop in H as [Hc Hs]. rewrite Hc.
    pose proof (digit_val_range _ Hc) as Hd.
    rewrite maxUint64_eq in *.
    change (2 ^ 64) with 18446744073709551616.
    change (18446744073709551615 / 10 + 1) with 1844674407370955162.
    destruct (Z.geb_spec n 1844674407370955162) as [Hbig | Hsmall]; [reflexivity|].
    destruct (Z_le_gt_dec (n * 10 + digit_val c) 18446744073709551615) as [Hfit | Hwrap].
    + rewrite (Z.mod_small (n * 10 + digit_val c)) by lia.
      destruct (Z.ltb_spec (n * 10 + digit_val c) (n * 10)); [lia|].
      destruct (Z.gtb_spec (n * 10 + digit_val c) 18446744073709551615); [lia|].
      cbn [orb]. rewrite <- maxUint64_eq. apply IH; rewrite ?maxUint64_eq; [exact Hs | lia | exact Hover].
    + assert (E : (n * 10 + digit_val c) mod 18446744073709551616
                  = n * 10 + digit_val c - 18446744073709551616).
      { symmetry. apply (Z.mod_unique _ _ 1); lia. }
      rewrite E.
      destruct (Z.ltb_spec (n * 10 + digit_val c - 18446744073709551616) (n * 10));
        [reflexivity | lia].
Qed.

(** On a numeral [Atoi] returns the number, or the largest [int] and a
    range error when the number does not fit. *)
Lemma Atoi_numeral_spec (s : string) :
  numeral s = true ->
  Atoi s = if fits s then (dec_value s, None)
           else (maxInt, Some (NumError "Atoi" s ErrRange)).
Proof.
  intros Hnum. destruct (fits s) eqn:F; [now apply Atoi_numeral|].
  destruct (Atoi s) as [v [e|]] eqn:E.
  - destruct (Atoi_numeral_error _ _ _ Hnum E) as (-> & -> & _). reflexivity.
  - exfalso. revert E. unfold numeral in Hnum. apply andb_prop in Hnum as [Hne Hdig].
    unfold fits in F. apply Z.leb_gt in F. rewrite maxInt_eq in F.
    destruct s as [|c s]; [discriminate Hne|].
    assert (Hc : is_digit c = true) by (simpl in Hdig; now apply andb_prop in Hdig).
    destruct (digit_not_sign _ Hc) as [Hplus Hminus].
    unfold Atoi, ParseInt. rewrite Hplus, Hminus. cbn [orb negb andb].
    unfold ParseUint.
    change (2 ^ (intSize - 1)) with 9223372036854775808.
    destruct (Z_le_gt_dec (dec_value (String c s)) maxUint64) as [Hle | Hgt].
    + rewrite (ParseUint_loop_numeral _ 0 Hdig) by (unfold dec_value in Hle; lia).
      unfold dec_value in F.
      destruct (Z.geb_spec (dec_from 0 (String c s)) 9223372036854775808); [|lia].
      discriminate.
    + rewrite (ParseUint_loop_overflow _ 0 Hdig)
        by (unfold dec_value in Hgt; rewrite ?maxUint64_eq in *; lia).
      discriminate.
Qed.

Lemma Atoi_numeral_ok (s : string) (v : Z) :
  numeral s = true -> Atoi s = (v, None) ->
  v = dec_value s /\ 0 <= v <= maxInt.
Proof.
  intros Hnum H. rewrite (Atoi_numeral_spec _ Hnum) in H.
  destruct (fits s) eqn:F; [|discriminate H]. injection H as <-.
  split; [reflexivity|]. split.
  - apply dec_from_nonneg; [|lia]. now apply andb_prop in Hnum as [_ ?].
  - now apply Z.leb_le.
Qed.

(** ** What a match of the pattern is made of *)

Local Open Scope nat_scope.

Lemma exec_lit_inv (c : ascii) (r : regex) (s : string) (cs : caps) k (res : caps) :
  exec (Cat (Lit c) r) s cs k = Some res ->
  exists s', s = String c s' /\ exec r s' cs k = Some res.
Proof.
  cbn [exec]. destruct s as [|a s]; [discriminate|].
  destruct (Ascii.eqb_spec a c) as [-> | _]; [|discriminate]. eauto.
Qed.

Lemma exec_cap_plus_inv (i : nat) (p : ascii -> bool) (r : regex)
      (s : string) (cs : caps) k (res : caps) :
  exec (Cat (Cap i (Plus p)) r) s cs k = Some res ->
  exists u v, s = (u ++ v)%string /\ nonempty u = true /\ all_bytes p u = true
              /\ exec r v (set_cap i u cs) k = Some res.
Proof.
  cbn [exec]. intros H.
  apply plus_greedy_inv in H as (u & v & -> & Hne & Hu & H).
  rewrite consumed_app in H. exists u, v. auto.
Qed.

Lemma exec_cap_class_inv (i : nat) (p : ascii -> bool)
      (s : string) (cs : caps) k (res : caps) :
  exec (Cat (Cap i (Class p)) Eps) s cs k = Some res ->
  exists a s', s = String a s' /\ p a = true
               /\ k s' (set_cap i (String a "") cs) = Some res.
Proof.
  cbn [exec]. destruct s as [|a s]; [discriminate|].
  destruct (p a) eqn:Hp; [|discriminate]. intros H.
  change (String a s) with (String a "" ++ s)%string in H.
  rewrite consumed_app in H. eauto.
Qed.

(** A match of the pattern reads a record: [$], a numeral, [:], a name,
    [:@], a numeral, [:], a name, [:], a numeral, [:%], a numeral, [:] and
    [0] or [1]; the groups are these parts. *)
Lemma exec_pieces_inv (s : string) (cs : caps) k (res : caps) :
  exec pieces s cs k = Some res ->
  exists sid sname wid wname widx pid f rest,
    s = ("$" ++ sid ++ ":" ++ sname ++ ":@" ++ wid ++ ":" ++ wname ++ ":"
             ++ widx ++ ":%" ++ pid ++ ":" ++ String f rest)%string
    /\ numeral sid = true /\ dotted sname = true /\ numeral wid = true
    /\ dotted wname = true /\ numeral widx = true /\ numeral pid = true
    /\ zero_one f = true
    /\ k rest
         (set_cap 7 (String f "") (set_cap 6 pid (set_cap 5 widx
           (set_cap 4 wname (set_cap 3 wid (set_cap 2 sname
             (set_cap 1 sid cs))))))) = Some res.
Proof.
  unfold pieces. intros H.
  apply exec_lit_inv in H as (s0 & -> & H).
  apply exec_cap_plus_inv in H as (sid & s1 & -> & N1a & N1b & H).
  apply exec_lit_inv in H as (s2 & -> & H).
  apply exec_cap_plus_inv in H as (sname & s3 & -> & N2a & N2b & H).
  apply exec_lit_inv in H as (s4 & -> & H).
  apply exec_lit_inv in H as (s5 & -> & H).
  apply exec_cap_plus_inv in H as (wid & s6 & -> & N3a & N3b & H).
  apply exec_lit_inv in H as (s7 & -> & H).
  apply exec_cap_plus_inv in H as (wname & s8 & -> & N4a & N4b & H).
  apply exec_lit_inv in H as (s9 & -> & H).
  apply exec_cap_plus_inv in H as (widx & s10 & -> & N5a & N5b & H).
  apply exec_lit_inv in H as (s11 & -> & H).
  apply exec_lit_inv in H as (s12 & -> & H).
  apply exec_cap_plus_inv in H as (pid & s13 & -> & N6a & N6b & H).
  apply exec_lit_inv in H as (s14 & -> & H).
  apply exec_cap_class_inv in H as (f & rest & -> & Hf & H).
  exists sid, sname, wid, wname, widx, pid, f, rest.
  unfold numeral, dotted.
  rewrite N1a, N1b, N2a, N2b, N3a, N3b, N4a, N4b, N5a, N5b, N6a, N6b.
  repeat split; try reflexivity; assumption.
Qed.

Lemma search_inv (r : regex) (n : nat) (s : string) (res : caps) :
  search r n s = Some res ->
  exists pre s0, s = (pre ++ s0)%string /\ match_here r n s0 = Some res.
Proof.
  induction s as [|c s IH]; cbn [search].
  - destruct (match_here r n "") eqn:E; [|discriminate].
    intros H. injection H as ->. exists EmptyString, EmptyString. auto.
  - destruct (match_here r n (String c s)) eqn:E.
    + intros H. injection H as ->. exists EmptyString, (String c s). auto.
    + intros H. destruct (IH H) as (pre & s0 & -> & Hm).
      exists (String c pre), s0. auto.
Qed.

(** Whatever [FindStringSubmatch] finds in a line is a record inside the
    line, and the submatches are the parts of the record. *)
Lemma FindStringSubmatch_sound (line : string) :
  FindStringSubmatch re line = []
  \/ exists pre rest sid sname wid wname widx pid f,
       line = (pre ++ ("$" ++ sid ++ ":" ++ sname ++ ":@" ++ wid ++ ":" ++ wname
                          ++ ":" ++ widx ++ ":%" ++ pid ++ ":" ++ String f "")
                   ++ rest)%string
       /\ numeral sid = true /\ dotted sname = true /\ numeral wid = true
       /\ dotted wname = true /\ numeral widx = true /\ numeral pid = true
       /\ zero_one f = true
       /\ FindStringSubmatch re line
          = [ ("$" ++ sid ++ ":" ++ sname ++ ":@" ++ wid ++ ":" ++ wname ++ ":"
                   ++ widx ++ ":%" ++ pid ++ ":" ++ String f "")%string;
              sid; sname; wid; wname; widx; pid; String f "" ].
Proof.
  unfold FindStringSubmatch.
  destruct (search (prog re) (numSubexp re) line) as [res|] eqn:H; [right | now left].
  apply search_inv in H as (pre & s0 & -> & H).
  unfold match_here in H. rewrite exec_pieces in H.
  apply exec_pieces_inv in H
    as (sid & sname & wid & wname & widx & pid & f & rest & E & H1 & H2 & H3
        & H4 & H5 & H6 & H7 & H).
  exists pre, rest, sid, sname, wid, wname, widx, pid, f.
  assert (Es : s0 = (("$" ++ sid ++ ":" ++ sname ++ ":@" ++ wid ++ ":" ++ wname
                          ++ ":" ++ widx ++ ":%" ++ pid ++ ":" ++ String f "")
                       ++ rest)%string).
  { rewrite E. cbn [append].
    repeat (rewrite ?app_assoc_s; cbn [append]). reflexivity. }
  repeat split; try assumption.
  - now rewrite Es.
  - rewrite Es, consumed_app in H. injection H as <-. reflexivity.
Qed.


(** The value [Atoi] returns with an error: 0 with a syntax error; with a
    range error the smallest [int] after a minus sign, the largest [int]
    otherwise. *)
Lemma Atoi_failure_sign (s : string) (v : Z) (e : error) :
  Atoi s = (v, Some e) ->
  (e = NumError "Atoi" s ErrSyntax /\ v = 0%Z)
  \/ (e = NumError "Atoi" s ErrRange
      /\ v = if negative s then minInt else maxInt).
Proof.
  unfold Atoi, ParseInt, negative. destruct s as [|c s].
  - intros H. injection H as <- <-. left. split; reflexivity.
  - destruct (ParseUint (if (Ascii.eqb c "+" || Ascii.eqb c "-")%bool then s else String c s))
      as [un [[|]|]];
      rewrite ?maxInt_eq; unfold minInt;
      change (2 ^ (intSize - 1))%Z with 9223372036854775808%Z.
    + intros H. injection H as <- <-. left. split; reflexivity.
    + destruct (Ascii.eqb c "-"); cbn [negb andb].
      * destruct (un >? 9223372036854775808)%Z; intros H; [|discriminate H].
        injection H as <- <-. right. split; reflexivity.
      * destruct (un >=? 9223372036854775808)%Z; intros H; [|discriminate H].
        injection H as <- <-. right. split; reflexivity.
    + destruct (Ascii.eqb c "-"); cbn [negb andb].
      * destruct (un >? 9223372036854775808)%Z; intros H; [|discriminate H].
        injection H as <- <-. right. split; reflexivity.
      * destruct (un >=? 9223372036854775808)%Z; intros H; [|discriminate H].
        injection H as <- <-. right. split; reflexivity.
Qed.

(** After a minus sign: the opposite of the number, or the smallest [int]
    and a range error when the opposite is below it. *)
Lemma Atoi_minus_numeral (ds : string) :
  numeral ds = true ->
  Atoi (String "-" ds)
  = if (dec_value ds <=? - minInt)%Z then ((- dec_value ds)%Z, None)
    else (minInt, Some (NumError "Atoi" (String "-" ds) ErrRange)).
Proof.
  intros Hnum. apply andb_prop in Hnum as [Hne Hdig].
  unfold Atoi, ParseInt, minInt.
  change (Ascii.eqb "-" "+") with false. change (Ascii.eqb "-" "-") with true.
  cbn [orb negb andb].
  change (2 ^ (intSize - 1))%Z with 9223372036854775808%Z.
  rewrite Z.opp_involutive.
  assert (Hpu : ParseUint ds = ParseUint_loop ds 0%Z)
    by (destruct ds; [discriminate Hne | reflexivity]).
  rewrite Hpu. unfold dec_value.
  destruct (Z_le_gt_dec (dec_from 0 ds) maxUint64) as [Hle | Hgt].
  - rewrite (ParseUint_loop_numeral _ 0%Z Hdig) by lia.
    destruct (Z.gtb_spec (dec_from 0 ds) 9223372036854775808);
      destruct (Z.leb_spec (dec_from 0 ds) 9223372036854775808);
      try lia; reflexivity.
  - rewrite (ParseUint_loop_overflow _ 0%Z Hdig)
      by (rewrite ?maxUint64_eq in *; lia).
    rewrite maxUint64_eq in *.
    destruct (Z.leb_spec (dec_from 0 ds) 9223372036854775808); [lia|].
    reflexivity.
Qed.

(** A matched line with a field [Atoi] rejects ends the listing. *)
Lemma parseLine_failure_matched (line : string) (r : row) (panes : list Pane)
      (e : error) :
  matched line r -> first_failure r = Some e ->
  parseLine line panes = Ret (inl e).
Proof.
  intros Hm Hfail. unfold matched in Hm. unfold parseLine. cbv zeta.
  rewrite !Hm.
  cbn [List.length Nat.leb paneParts index nth_error obind].
  unfold first_failure in Hfail.
  destruct (Atoi (session_id r)) as [v1 [e1|]]; cbn [snd] in Hfail;
    [now injection Hfail as -> |].
  cbn [obind].
  destruct (Atoi (window_id r)) as [v3 [e3|]]; cbn [snd] in Hfail;
    [now injection Hfail as -> |].
  cbn [obind].
  destruct (Atoi (window_index r)) as [v5 [e5|]]; cbn [snd] in Hfail;
    [now injection Hfail as -> |].
  cbn [obind].
  destruct (Atoi (pane_id r)) as [v6 [e6|]]; cbn [snd] in Hfail;
    [now injection Hfail as -> | discriminate Hfail].
Qed.

(** The numeric fields of a matched line are numerals. *)
Lemma matched_numerals (line : string) (r : row) :
  matched line r ->
  numeral (session_id r) = true /\ numeral (window_id r) = true
  /\ numeral (window_index r) = true /\ numeral (pane_id r) = true.
Proof.
  unfold matched. intros Hm.
  destruct (FindStringSubmatch_sound line)
    as [E | (pre & rest & sid & sname & wid & wname & widx & pid & f & _ & N1 & _
             & N3 & _ & N5 & N6 & _ & E)];
    rewrite Hm in E; [discriminate E|].
  injection E as _ <- _ <- _ <- <- _. auto.
Qed.

(* ================================================================= *)
(** * The operations, for any command runner *)

Arguments ListPanes {World} RunCmd args _.
Arguments GetCurrentPath {World} RunCmd p _.
Arguments SetFocus {World} RunCmd p _.
Arguments MovePane {World} RunCmd p pane_target focus _.
Arguments GetCurrentSize {World} RunCmd p _.
Arguments Capture {World} RunCmd p _.
Arguments runCmd {World} RunCmd args _.
Arguments RunCommand {World} RunCmd ErrorText p command _.
Arguments RunCommandOn {World} RunCmd ErrorText p command _.
Arguments lift {World A} o _.

Section AnyRunner.

Variable World : Type.
Variable RunCmd : list string -> World -> reply * World.

Lemma runCmd_eq (args : list string) (st : state World) (r : reply) (w : World) :
  RunCmd args (world st) = (r, w) ->
  runCmd RunCmd args st = Done r (called args w st).
Proof. intros H. unfold runCmd. now rewrite H. Qed.

(** What [ListPanes] does after a successful listing command. *)
Lemma ListPanes_ok (args : list string) (st : state World)
      (out serr : string) (w' : World) :
  RunCmd (["list-panes"; "-F"; format] ++ args) (world st)
  = ((out, serr, None), w') ->
  ListPanes RunCmd args st
  = lift (parseLines (Split out LF) [])
         (called (["list-panes"; "-F"; format] ++ args) w' st).
Proof.
  intros H. unfold ListPanes, bind. now rewrite (runCmd_eq _ _ _ _ H).
Qed.

(** What [GetCurrentPath] does after a successful command. *)
Lemma GetCurrentPath_ok (p : Pane) (st : state World)
      (out serr : string) (w' : World) :
  RunCmd ["display-message"; "-P"; "-F"; "#{pane_current_path}"] (world st)
  = ((out, serr, None), w') ->
  GetCurrentPath RunCmd p st
  = match slice_to out (len out - 1) with
    | Ret s =>
        Done (s, None)
             (called ["display-message"; "-P"; "-F"; "#{pane_current_path}"] w' st)
    | Panic why => Crash (inl why)
    end.
Proof.
  intros H. unfold GetCurrentPath, bind. rewrite (runCmd_eq _ _ _ _ H).
  unfold lift. now destruct (slice_to out (len out - 1)).
Qed.

(** What [GetCurrentSize] does after a successful command. *)
Lemma GetCurrentSize_ok (p : Pane) (st : state World)
      (out serr : string) (w' : World) :
  RunCmd ["display-message"; "-p"; "-t"; paneTarget p; "-F";
          "#{pane_width}x#{pane_height}"] (world st)
  = ((out, serr, None), w') ->
  GetCurrentSize RunCmd p st
  = match slice_to out (len out - 1) with
    | Ret s =>
        match index (SplitN s "x" 2) 0 with
        | Ret d0 =>
            match index (SplitN s "x" 2) 1 with
            | Ret d1 =>
                Done (fst (Atoi d0), fst (Atoi d1), None)
                     (called ["display-message"; "-p"; "-t"; paneTarget p; "-F";
                              "#{pane_width}x#{pane_height}"] w' st)
            | Panic why => Crash (inl why)
            end
        | Panic why => Crash (inl why)
        end
    | Panic why => Crash (inl why)
    end.
Proof.
  intros H. unfold GetCurrentSize, bind. rewrite (runCmd_eq _ _ _ _ H).
  unfold lift. destruct (slice_to out (len out - 1)) as [s|]; [|reflexivity].
  destruct (index (SplitN s "x" 2) 0); [|reflexivity].
  now destruct (index (SplitN s "x" 2) 1).
Qed.

(** C2: when the listing text is made of well-formed lines, whose numeric
    fields fit [int], and of lines the pattern does not match, [ListPanes]
    returns one pane for each well-formed line, in the order of the lines,
    with the fields decoded from the line ([Active] is the flag), and
    returns no error: the other lines are passed over. *)
Theorem ListPanes_decodes_listing
    (args : list string) (st : state World) (items : list item)
    (serr : string) (w' : World) :
  forallb item_ok items = true ->
  RunCmd (["list-panes"; "-F"; format] ++ args) (world st)
  = ((Join (map text_of items) (String LF ""), serr, None), w') ->
  ListPanes RunCmd args st
  = Done (panes_of items, None)
         (called (["list-panes"; "-F"; format] ++ args) w' st)
  /\ List.length (panes_of items) = well_count items.
Proof.
  intros Hok Hrun. split; [|apply panes_of_length].
  rewrite (ListPanes_ok _ _ _ _ _ Hrun).
  destruct items as [|i items].
  - reflexivity.
  - rewrite Split_Join_lines; [|discriminate | now apply items_lines].
    rewrite <- (app_nil_r (map text_of (i :: items))).
    rewrite (parseLines_items _ _ _ Hok). reflexivity.
Qed.

(** C1, amended: a line [$<x>:<rest>] in which [x] is not a numeral and
    holds neither [$] nor [:], and [rest] holds at most five [:], does not
    match the pattern and is passed over like any other line without a
    match: [ListPanes] answers as it does without that line.  A numeric
    field of a matched line that [Atoi] rejects, which happens only to a
    numeral too large for [int], ends the listing call at once with no
    panes and an error, whatever the lines before and after it hold; after
    lines that are well formed or without a match the error is the one of
    the first rejected field of that line. *)
Theorem ListPanes_skips_non_numeric_aborts_on_overflow :
  (forall (args : list string) (st : state World) (pre post : list string)
          (x rest serr : string) (w' : World),
      lines_ok pre -> lines_ok post ->
      count_byte LF x = 0 -> count_byte LF rest = 0 ->
      numeral x = false -> count_byte "$" x = 0 -> count_byte colon x = 0 ->
      count_byte colon rest <= 5 ->
      RunCmd (["list-panes"; "-F"; format] ++ args) (world st)
      = ((Join (pre ++ ("$" ++ x ++ ":" ++ rest)%string :: post) (String LF ""),
          serr, None), w') ->
      ListPanes RunCmd args st
      = lift (parseLines (pre ++ post) [])
             (called (["list-panes"; "-F"; format] ++ args) w' st))
  /\
  (forall (args : list string) (st : state World) (pre post : list string)
          (line : string) (r : row) (e : error) (serr : string) (w' : World),
      lines_ok pre -> lines_ok post -> count_byte LF line = 0 ->
      matched line r -> first_failure r = Some e ->
      RunCmd (["list-panes"; "-F"; format] ++ args) (world st)
      = ((Join (pre ++ line :: post) (String LF ""), serr, None), w') ->
      (exists e', ListPanes RunCmd args st
                  = Done ([], Some e')
                         (called (["list-panes"; "-F"; format] ++ args) w' st))
      /\ (forall items, forallb item_ok items = true -> pre = map text_of items ->
            ListPanes RunCmd args st
            = Done ([], Some e)
                   (called (["list-panes"; "-F"; format] ++ args) w' st))
      /\ (exists num, e = NumError "Atoi" num ErrRange /\ fits num = false)).
Proof.
  split.
  - intros args st pre post x rest serr w' Hpre Hpost Lx Lrest Hx Hd Hc Hrest Hrun.
    rewrite (ListPanes_ok _ _ _ _ _ Hrun).
    rewrite Split_Join_lines.
    + now rewrite parseLines_skip by (now apply FindStringSubmatch_non_numeric).
    + now destruct pre.
    + apply Forall_app. split; [exact Hpre|]. constructor; [|exact Hpost].
      cbn [append count_byte]. rewrite count_byte_app. cbn [count_byte].
      rewrite Lx, Lrest. reflexivity.
  - intros args st pre post line r e serr w' Hpre Hpost Hline Hm Hfail Hrun.
    rewrite (ListPanes_ok _ _ _ _ _ Hrun).
    rewrite Split_Join_lines;
      [| now destruct pre
       | apply Forall_app; split; [exact Hpre|];
         constructor; [exact Hline | exact Hpost] ].
    repeat split.
    + destruct (parseLines_abort pre post line []) as [e' He'].
      * intros acc. exists e. now apply (parseLine_failure_matched _ r).
      * exists e'. now rewrite He'.
    + intros items Hok ->. rewrite (parseLines_items _ _ _ Hok).
      cbn [parseLines].
      rewrite (parseLine_failure_matched _ _ _ _ Hm Hfail). reflexivity.
    + destruct (matched_numerals _ _ Hm) as (N1 & N3 & N5 & N6).
      unfold first_failure in Hfail.
      destruct (Atoi (session_id r)) as [v1 [e1|]] eqn:E1; cbn [snd] in Hfail.
      { injection Hfail as ->. exists (session_id r).
        destruct (Atoi_numeral_error _ _ _ N1 E1) as (? & _ & ?). auto. }
      destruct (Atoi (window_id r)) as [v3 [e3|]] eqn:E3; cbn [snd] in Hfail.
      { injection Hfail as ->. exists (window_id r).
        destruct (Atoi_numeral_error _ _ _ N3 E3) as (? & _ & ?). auto. }
      destruct (Atoi (window_index r)) as [v5 [e5|]] eqn:E5; cbn [snd] in Hfail.
      { injection Hfail as ->. exists (window_index r).
        destruct (Atoi_numeral_error _ _ _ N5 E5) as (? & _ & ?). auto. }
      destruct (Atoi (pane_id r)) as [v6 [e6|]] eqn:E6; cbn [snd] in Hfail;
        [|discriminate Hfail].
      injection Hfail as ->. exists (pane_id r).
      destruct (Atoi_numeral_error _ _ _ N6 E6) as (? & _ & ?). auto.
Qed.

(** C3: after [MovePane], whether the runner succeeded or failed, the
    receiver has the window name and window id of the destination, its
    other fields are as before (the pane index [ID] too), the destination
    pane is as before, and so is every other pane. *)
Theorem MovePane_updates_window_fields_only
    (st : state World) (p t : ptr) (focus : bool) (pv tv : Pane)
    (out serr : string) (err : option error) (w' : World) :
  store st p = Some pv ->
  store st t = Some tv ->
  RunCmd (if negb focus
          then ["join-pane"; "-s"; paneTarget pv; "-t"; windowTarget tv; "-d"]
          else ["join-pane"; "-s"; paneTarget pv; "-t"; windowTarget tv])
         (world st)
  = ((out, serr, err), w') ->
  exists st' pv',
    MovePane RunCmd p t focus st = Done err st'
    /\ store st' p = Some pv'
    /\ WindowName pv' = WindowName tv /\ WindowId pv' = WindowId tv
    /\ ID pv' = ID pv /\ SessionId pv' = SessionId pv
    /\ SessionName pv' = SessionName pv /\ WindowIndex pv' = WindowIndex pv
    /\ Active pv' = Active pv
    /\ store st' t = Some tv
    /\ (forall q, q <> p -> store st' q = store st q).
Proof.
  intros Hp Ht Hrun.
  assert (Hargs :
    (if negb focus
     then ["join-pane"; "-s"; paneTarget pv; "-t"; windowTarget tv] ++ ["-d"]
     else ["join-pane"; "-s"; paneTarget pv; "-t"; windowTarget tv])
    = (if negb focus
       then ["join-pane"; "-s"; paneTarget pv; "-t"; windowTarget tv; "-d"]
       else ["join-pane"; "-s"; paneTarget pv; "-t"; windowTarget tv]))
    by reflexivity.
  unfold MovePane, bind, load at 1 2. rewrite Hp, Ht, Hargs.
  unfold Println at 1. unfold runCmd. cbn [world]. rewrite Hrun.
  unfold load at 1, called. cbn [store]. rewrite Ht.
  unfold write at 1. cbn [store]. rewrite Hp.
  unfold load. cbn [store].
  destruct (Nat.eqb_spec t p) as [-> | Hne].
  - assert (pv = tv) by congruence. subst tv.
    unfold write. cbn [store]. rewrite Nat.eqb_refl. unfold ret.
    eexists. exists (set_WindowId (WindowId pv) (set_WindowName (WindowName pv) pv)).
    split; [reflexivity|]. cbn [store]. rewrite Nat.eqb_refl.
    repeat split; try reflexivity.
    + now destruct pv.
    + intros q Hq. destruct (Nat.eqb_spec q p); [contradiction | reflexivity].
  - rewrite Ht. unfold write. cbn [store]. rewrite Nat.eqb_refl. unfold ret.
    eexists. exists (set_WindowId (WindowId tv) (set_WindowName (WindowName tv) pv)).
    split; [reflexivity|]. cbn [store]. rewrite Nat.eqb_refl.
    destruct (Nat.eqb_spec t p) as [-> | _]; [contradiction|].
    repeat split; try reflexivity; try assumption.
    intros q Hq. destruct (Nat.eqb_spec q p); [contradiction | reflexivity].
Qed.

(** C4: [SetFocus] calls the runner exactly twice, [select-window] on
    [SessionName:WindowId] and then [select-pane] on
    [SessionName:WindowId.ID]; the second call is made whatever the first
    returned, and the error returned is the one of the second call. *)
Theorem SetFocus_two_calls_second_error
    (p : Pane) (st : state World) (r1 r2 : reply) (w1 w2 : World) :
  RunCmd ["select-window"; "-t";
          (SessionName p ++ ":" ++ itoa (WindowId p))%string] (world st)
  = (r1, w1) ->
  RunCmd ["select-pane"; "-t";
          (SessionName p ++ ":" ++ itoa (WindowId p) ++ "." ++ itoa (ID p))%string]
         w1
  = (r2, w2) ->
  SetFocus RunCmd p st
  = Done (snd r2)
      {| world := w2;
         calls := calls st
           ++ [ ["select-window"; "-t";
                 (SessionName p ++ ":" ++ itoa (WindowId p))%string];
                ["select-pane"; "-t";
                 (SessionName p ++ ":" ++ itoa (WindowId p) ++ "."
                    ++ itoa (ID p))%string] ];
         console := console st;
         store := store st |}.
Proof.
  intros H1 H2. unfold SetFocus, bind.
  rewrite windowTarget_eq, paneTarget_eq.
  rewrite (runCmd_eq _ _ _ _ H1). destruct r1 as [[o1 s1] e1].
  unfold runCmd, called. cbn [world]. rewrite H2. destruct r2 as [[o2 s2] e2].
  cbn [calls console store snd]. unfold ret. now rewrite <- app_assoc.
Qed.

(** C6: when the runner succeeds with a standard output that ends in a line
    terminator, [GetCurrentPath] returns it without that one terminator and
    no error; when the runner fails, it returns the empty string and the
    runner's error. *)
Theorem GetCurrentPath_strips_terminator
    (p : Pane) (st : state World) (out serr : string) (err : option error)
    (w' : World) :
  RunCmd ["display-message"; "-P"; "-F"; "#{pane_current_path}"] (world st)
  = ((out, serr, err), w') ->
  (forall e, err = Some e ->
     GetCurrentPath RunCmd p st
     = Done ("", Some e)
            (called ["display-message"; "-P"; "-F"; "#{pane_current_path}"] w' st))
  /\ (forall s, err = None -> out = (s ++ String LF "")%string ->
        GetCurrentPath RunCmd p st
        = Done (s, None)
               (called ["display-message"; "-P"; "-F"; "#{pane_current_path}"] w' st)).
Proof.
  intros Hrun. split.
  - intros e ->. unfold GetCurrentPath, bind. now rewrite (runCmd_eq _ _ _ _ Hrun).
  - intros s -> ->. rewrite (GetCurrentPath_ok _ _ _ _ _ Hrun).
    now rewrite slice_to_last.
Qed.

(** C7: when the runner fails, [Capture] returns the standard-error text
    with the error; when it succeeds, [Capture] returns the standard output
    as it is, a trailing line terminator included, and no error. *)
Theorem Capture_returns_stderr_or_raw_stdout
    (p : Pane) (st : state World) (out serr : string) (err : option error)
    (w' : World) :
  RunCmd ["capture-pane"; "-t";
          (SessionName p ++ ":" ++ itoa (WindowId p) ++ "." ++ itoa (ID p))%string;
          "-p"] (world st)
  = ((out, serr, err), w') ->
  (forall e, err = Some e ->
     Capture RunCmd p st
     = Done (serr, Some e) (called ["capture-pane"; "-t"; paneTarget p; "-p"] w' st))
  /\ (err = None ->
      Capture RunCmd p st
      = Done (out, None) (called ["capture-pane"; "-t"; paneTarget p; "-p"] w' st)).
Proof.
  intros Hrun. rewrite <- paneTarget_eq in Hrun.
  split; [intros e -> | intros ->];
    unfold Capture, bind; now rewrite (runCmd_eq _ _ _ _ Hrun).
Qed.

(** C5, amended: when the runner succeeds with [<a>x<b>] and a line
    terminator, where [a] has no [x], [GetCurrentSize] returns what [Atoi]
    gives for [a] and for [b] and no error.  [Atoi] gives a numeral the
    number it denotes when that fits [int], and after a minus sign the
    opposite; a parse failure is a syntax error with the value 0, or a
    range error, which is what a numeral above the largest [int] gets, with
    the largest [int] for value, and what a minus sign and a numeral whose
    opposite is below the smallest [int] gets, with the smallest [int] for
    value. *)
Theorem GetCurrentSize_parses_without_error
    (p : Pane) (st : state World) (a b serr : string) (w' : World) :
  count_byte "x" a = 0 ->
  RunCmd ["display-message"; "-p"; "-t"; paneTarget p; "-F";
          "#{pane_width}x#{pane_height}"] (world st)
  = ((a ++ "x" ++ b ++ String LF "", serr, None)%string, w') ->
  GetCurrentSize RunCmd p st
  = Done (fst (Atoi a), fst (Atoi b), None)
         (called ["display-message"; "-p"; "-t"; paneTarget p; "-F";
                  "#{pane_width}x#{pane_height}"] w' st)
  /\ (forall d, numeral d = true ->
        Atoi d = if fits d then (dec_value d, None)
                 else (maxInt, Some (NumError "Atoi" d ErrRange)))
  /\ (forall d, numeral d = true ->
        Atoi (String "-" d)
        = if (dec_value d <=? - minInt)%Z then ((- dec_value d)%Z, None)
          else (minInt, Some (NumError "Atoi" (String "-" d) ErrRange)))
  /\ (forall d e, snd (Atoi d) = Some e ->
        (e = NumError "Atoi" d ErrSyntax /\ fst (Atoi d) = 0%Z)
        \/ (e = NumError "Atoi" d ErrRange
            /\ fst (Atoi d) = if negative d then minInt else maxInt)).
Proof.
  intros Ha Hrun. split; [|split; [|split]].
  - rewrite (GetCurrentSize_ok _ _ _ _ _ Hrun).
    change (a ++ "x" ++ b ++ String LF "")%string
      with (a ++ (String "x" b ++ String LF ""))%string.
    rewrite <- app_assoc_s, slice_to_last, (SplitN_first _ _ _ Ha). reflexivity.
  - exact Atoi_numeral_spec.
  - exact Atoi_minus_numeral.
  - intros d e H. destruct (Atoi d) as [v eo] eqn:E. cbn [snd] in H. subst eo.
    cbn [fst]. exact (Atoi_failure_sign _ _ _ E).
Qed.

(** C8: the target strings are functions of the identity fields alone:
    the pane target is [SessionName:WindowId.ID] and the window target
    [SessionName:WindowId], with the numbers in decimal; for "main", 2 and 1
    they are "main:2.1" and "main:2"; panes with the same identity fields
    have the same targets; the decimal numeral written for an [int] is read
    back by [Atoi] as that [int]; [SetFocus] and [MovePane] pass these
    strings to the runner. *)
Theorem target_encoding (p q : Pane) :
  paneTarget p
  = (SessionName p ++ ":" ++ itoa (WindowId p) ++ "." ++ itoa (ID p))%string
  /\ windowTarget p = (SessionName p ++ ":" ++ itoa (WindowId p))%string
  /\ (SessionName p = "main"%string -> WindowId p = 2%Z -> ID p = 1%Z ->
      paneTarget p = "main:2.1"%string /\ windowTarget p = "main:2"%string)
  /\ (SessionName p = SessionName q -> WindowId p = WindowId q -> ID p = ID q ->
      paneTarget p = paneTarget q /\ windowTarget p = windowTarget q)
  /\ (forall n, (minInt <= n <= maxInt)%Z -> Atoi (itoa n) = (n, None))
  /\ (forall st, exists e st',
        SetFocus RunCmd p st = Done e st'
        /\ calls st' = calls st ++ [ ["select-window"; "-t"; windowTarget p];
                                     ["select-pane"; "-t"; paneTarget p] ])
  /\ (forall st src dst focus,
        store st src = Some p -> store st dst = Some q ->
        exists e st',
          MovePane RunCmd src dst focus st = Done e st'
          /\ calls st'
             = calls st ++ [ ["join-pane"; "-s"; paneTarget p; "-t"; windowTarget q]
                               ++ (if focus then [] else ["-d"]) ]).
Proof.
  split; [apply paneTarget_eq|]. split; [apply windowTarget_eq|].
  split; [|split; [|split; [|split]]].
  - intros Hs Hw Hi. rewrite paneTarget_eq, windowTarget_eq, Hs, Hw, Hi.
    split; reflexivity.
  - intros Hs Hw Hi. rewrite !paneTarget_eq, !windowTarget_eq, Hs, Hw, Hi.
    split; reflexivity.
  - exact Atoi_itoa.
  - intros st. unfold SetFocus, bind, runCmd.
    destruct (RunCmd _ (world st)) as [[[o1 s1] e1] w1]. cbn [world called].
    destruct (RunCmd _ w1) as [[[o2 s2] e2] w2]. unfold ret.
    eexists. eexists. split; [reflexivity|]. cbn [calls called]. now rewrite <- app_assoc.
  - intros st src dst focus Hp Hq.
    destruct (RunCmd (if negb focus
          then ["join-pane"; "-s"; paneTarget p; "-t"; windowTarget q; "-d"]
          else ["join-pane"; "-s"; paneTarget p; "-t"; windowTarget q])
         (world st)) as [[[out serr] err] w'] eqn:Hrun.
    assert (Hargs :
      (if negb focus
       then ["join-pane"; "-s"; paneTarget p; "-t"; windowTarget q] ++ ["-d"]
       else ["join-pane"; "-s"; paneTarget p; "-t"; windowTarget q])
      = (if negb focus
         then ["join-pane"; "-s"; paneTarget p; "-t"; windowTarget q; "-d"]
         else ["join-pane"; "-s"; paneTarget p; "-t"; windowTarget q]))
      by reflexivity.
    unfold MovePane, bind, load at 1 2. rewrite Hp, Hq, Hargs.
    unfold Println at 1. unfold runCmd. cbn [world]. rewrite Hrun.
    unfold load at 1, called. cbn [store]. rewrite Hq.
    unfold write at 1. cbn [store]. rewrite Hp.
    unfold load. cbn [store].
    destruct (Nat.eqb dst src); [|rewrite Hq];
      unfold write; cbn [store]; rewrite Nat.eqb_refl; unfold ret;
      eexists; eexists; (split; [reflexivity|]); cbn [calls called];
      now destruct focus.
Qed.

(** C9: after a successful command [GetCurrentSize] panics on an empty
    standard output (slice bounds) and on one that has no [x] once its last
    byte is off (index out of range), instead of returning an error; it
    returns when the output is not empty and has an [x] before its last
    byte. *)
Theorem GetCurrentSize_panics_without_x
    (p : Pane) (st : state World) (out serr : string) (w' : World) :
  RunCmd ["display-message"; "-p"; "-t"; paneTarget p; "-F";
          "#{pane_width}x#{pane_height}"] (world st)
  = ((out, serr, None), w') ->
  (out = EmptyString ->
   GetCurrentSize RunCmd p st = Crash (inl (SliceBounds (-1) 0)))
  /\ (out <> EmptyString -> count_byte "x" (strip_last out) = 0 ->
      GetCurrentSize RunCmd p st = Crash (inl (IndexRange 1 1)))
  /\ (out <> EmptyString -> count_byte "x" (strip_last out) <> 0 ->
      exists w h,
        GetCurrentSize RunCmd p st
        = Done (w, h, None)
               (called ["display-message"; "-p"; "-t"; paneTarget p; "-F";
                        "#{pane_width}x#{pane_height}"] w' st)).
Proof.
  intros Hrun. rewrite (GetCurrentSize_ok _ _ _ _ _ Hrun). repeat split.
  - intros ->. reflexivity.
  - intros Hne Hx. destruct (last_byte _ Hne) as (body & c & ->).
    rewrite strip_last_app in Hx.
    now rewrite slice_to_last, (SplitN_none _ _ Hx).
  - intros Hne Hx. destruct (last_byte _ Hne) as (body & c & ->).
    rewrite strip_last_app in Hx.
    destruct (first_sep _ _ Hx) as (a & b & -> & Ha).
    rewrite slice_to_last, (SplitN_first _ _ _ Ha). cbn [index nth_error].
    eauto.
Qed.

(** C10: after a successful command [GetCurrentPath] panics on an empty
    standard output (slice bounds); on any other output it returns the
    output without its last byte, whatever that byte is, and no error. *)
Theorem GetCurrentPath_drops_last_byte
    (p : Pane) (st : state World) (out serr : string) (w' : World) :
  RunCmd ["display-message"; "-P"; "-F"; "#{pane_current_path}"] (world st)
  = ((out, serr, None), w') ->
  (out = EmptyString ->
   GetCurrentPath RunCmd p st = Crash (inl (SliceBounds (-1) 0)))
  /\ (forall body c, out = (body ++ String c "")%string ->
        GetCurrentPath RunCmd p st
        = Done (body, None)
            (called ["display-message"; "-P"; "-F"; "#{pane_current_path}"] w' st))
  /\ (out <> EmptyString ->
      GetCurrentPath RunCmd p st
      = Done (strip_last out, None)
          (called ["display-message"; "-P"; "-F"; "#{pane_current_path}"] w' st)).
Proof.
  intros Hrun. rewrite (GetCurrentPath_ok _ _ _ _ _ Hrun). repeat split.
  - intros ->. reflexivity.
  - intros body c ->. now rewrite slice_to_last.
  - intros Hne. destruct (last_byte _ Hne) as (body & c & ->).
    now rewrite slice_to_last, strip_last_app.
Qed.

End AnyRunner.

(* ================================================================= *)
(** * The operations on the scripted runner *)

Local Open Scope Z_scope.

Lemma ListPanes_decodes_listing_witness :
  forallb item_ok sample_items = true
  /\ ListPanes scripted ["-a"]
       (fresh [(Join (map text_of sample_items) (String LF ""), "", None)] [])
     = Done ([ {| ID := 0; SessionId := 1; SessionName := "main"; WindowId := 1;
                  WindowName := "shell"; WindowIndex := 0; Active := true |};
               {| ID := 1; SessionId := 1; SessionName := "main"; WindowId := 1;
                  WindowName := "shell"; WindowIndex := 0; Active := false |} ],
             None)
            (called (["list-panes"; "-F"; format] ++ ["-a"]) []
               (fresh [(Join (map text_of sample_items) (String LF ""), "", None)] [])).
Proof.
  split; [reflexivity|].
  apply (ListPanes_decodes_listing Script scripted ["-a"]
           (fresh [(Join (map text_of sample_items) (String LF ""), "", None)] [])
           sample_items "" []); reflexivity.
Defined.

(** A line with the session id [x]: no pane, and no error either. *)
Lemma ListPanes_non_numeric_session_id_no_error :
  ListPanes scripted []
    (fresh [("$x:main:@1:shell:0:%0:1" ++ String LF "", "", None)%string] [])
  = Done ([], None)
      (called (["list-panes"; "-F"; format] ++ []) []
         (fresh [("$x:main:@1:shell:0:%0:1" ++ String LF "", "", None)%string] []))
  /\ ~ (exists panes e st',
          ListPanes scripted []
            (fresh [("$x:main:@1:shell:0:%0:1" ++ String LF "", "", None)%string] [])
          = Done (panes, Some e) st').
Proof.
  split; [reflexivity|].
  intros (panes & e & st' & H). vm_compute in H. discriminate H.
Qed.

Lemma ListPanes_skips_non_numeric_aborts_on_overflow_witness :
  ListPanes scripted []
    (fresh [("$x:main:@1:shell:0:%0:1" ++ String LF "", "", None)%string] [])
  = Done ([], None)
      (called (["list-panes"; "-F"; format] ++ []) []
         (fresh [("$x:main:@1:shell:0:%0:1" ++ String LF "", "", None)%string] []))
  /\ ListPanes scripted []
       (fresh [(Join [render row0; render big_row; render row1] (String LF ""),
                "", None)] [])
     = Done ([], Some (NumError "Atoi" "99999999999999999999" ErrRange))
         (called (["list-panes"; "-F"; format] ++ []) []
            (fresh [(Join [render row0; render big_row; render row1] (String LF ""),
                     "", None)] [])).
Proof.
  destruct (ListPanes_skips_non_numeric_aborts_on_overflow Script scripted)
    as [Hskip Habort].
  split.
  - apply (Hskip [] (fresh [("$x:main:@1:shell:0:%0:1" ++ String LF "", "", None)%string] [])
             [] [EmptyString] "x"%string "main:@1:shell:0:%0:1"%string ""%string []);
      try reflexivity; try (repeat constructor).
  - refine (proj1 (proj2 (Habort []
                (fresh [(Join [render row0; render big_row; render row1] (String LF ""),
                         "", None)] [])
                [render row0] [render row1] (render big_row) big_row
                (NumError "Atoi" "99999999999999999999" ErrRange) ""%string []
                _ _ _ _ _ _)) [Well row0] _ _);
      try reflexivity; repeat constructor.
Defined.

(** [MovePane] when the runner fails: the receiver is updated all the same. *)
Lemma MovePane_updates_window_fields_only_witness :
  exists st' pv',
    MovePane scripted 0%nat 1%nat false (fresh [] [main_pane; logs_pane])
    = Done (Some (ExecError "exit status 1")) st'
    /\ store st' 0%nat = Some pv'
    /\ WindowName pv' = "logs"%string /\ WindowId pv' = 5
    /\ ID pv' = 1 /\ SessionId pv' = 1
    /\ SessionName pv' = "main"%string /\ WindowIndex pv' = 0
    /\ Active pv' = true
    /\ store st' 1%nat = Some logs_pane
    /\ (forall q, q <> 0%nat ->
          store st' q = store (fresh [] [main_pane; logs_pane]) q).
Proof.
  apply (MovePane_updates_window_fields_only Script scripted
           (fresh [] [main_pane; logs_pane]) 0%nat 1%nat false
           main_pane logs_pane ""%string ""%string
           (Some (ExecError "exit status 1")) []);
    reflexivity.
Defined.

(** [SetFocus] when the first call fails and the second succeeds. *)
Lemma SetFocus_two_calls_second_error_witness :
  SetFocus scripted main_pane
    (fresh [("", "no such window", Some (ExecError "exit status 1"));
            ("", "", None)]%string [])
  = Done None
      {| world := [];
         calls := [ ["select-window"; "-t"; "main:2"];
                    ["select-pane"; "-t"; "main:2.1"] ]%string;
         console := [];
         store := nth_error [] |}.
Proof.
  apply (SetFocus_two_calls_second_error Script scripted main_pane
           (fresh [("", "no such window", Some (ExecError "exit status 1"));
                   ("", "", None)]%string [])
           (""%string, "no such window"%string, Some (ExecError "exit status 1"))
           (""%string, ""%string, None)
           [(""%string, ""%string, None)] []);
    reflexivity.
Defined.

(** A width too large for [int]: the parse fails, no error is returned and
    the width is the largest [int], not 0. *)
Lemma GetCurrentSize_overflow_is_not_zero :
  snd (Atoi "99999999999999999999")
  = Some (NumError "Atoi" "99999999999999999999" ErrRange)
  /\ GetCurrentSize scripted main_pane
       (fresh [("99999999999999999999x24" ++ String LF "", "", None)%string] [])
     = Done (9223372036854775807, 24, None)
         (called ["display-message"; "-p"; "-t"; "main:2.1"; "-F";
                  "#{pane_width}x#{pane_height}"]%string []
            (fresh [("99999999999999999999x24" ++ String LF "", "", None)%string] []))
  /\ 9223372036854775807 <> 0.
Proof. repeat split. discriminate. Qed.

Lemma GetCurrentSize_parses_without_error_witness :
  GetCurrentSize scripted main_pane
    (fresh [("80x24" ++ String LF "", "", None)%string] [])
  = Done (80, 24, None)
      (called ["display-message"; "-p"; "-t"; "main:2.1"; "-F";
               "#{pane_width}x#{pane_height}"]%string []
         (fresh [("80x24" ++ String LF "", "", None)%string] [])).
Proof.
  apply (GetCurrentSize_parses_without_error Script scripted main_pane
           (fresh [("80x24" ++ String LF "", "", None)%string] [])
           "80"%string "24"%string ""%string []);
    reflexivity.
Defined.

Lemma GetCurrentPath_strips_terminator_witness :
  GetCurrentPath scripted main_pane
    (fresh [("/home/user" ++ String LF "", "", None)%string] [])
  = Done ("/home/user"%string, None)
      (called ["display-message"; "-P"; "-F"; "#{pane_current_path}"]%string []
         (fresh [("/home/user" ++ String LF "", "", None)%string] []))
  /\ GetCurrentPath scripted main_pane (fresh [] [])
     = Done (""%string, Some (ExecError "exit status 1"))
         (called ["display-message"; "-P"; "-F"; "#{pane_current_path}"]%string []
            (fresh [] [])).
Proof.
  split.
  - apply (proj2 (GetCurrentPath_strips_terminator Script scripted main_pane
             (fresh [("/home/user" ++ String LF "", "", None)%string] [])
             ("/home/user" ++ String LF "")%string ""%string None []
             eq_refl) "/home/user"%string); reflexivity.
  - apply (proj1 (GetCurrentPath_strips_terminator Script scripted main_pane
             (fresh [] []) ""%string ""%string
             (Some (ExecError "exit status 1")) [] eq_refl)
             (ExecError "exit status 1")); reflexivity.
Defined.

Lemma Capture_returns_stderr_or_raw_stdout_witness :
  Capture scripted main_pane
    (fresh [("", "can't find pane", Some (ExecError "exit status 1"))%string] [])
  = Done ("can't find pane"%string, Some (ExecError "exit status 1"))
      (called ["capture-pane"; "-t"; "main:2.1"; "-p"]%string []
         (fresh [("", "can't find pane", Some (ExecError "exit status 1"))%string] []))
  /\ Capture scripted main_pane
       (fresh [("$ ls" ++ String LF "", "", None)%string] [])
     = Done (("$ ls" ++ String LF "")%string, None)
         (called ["capture-pane"; "-t"; "main:2.1"; "-p"]%string []
            (fresh [("$ ls" ++ String LF "", "", None)%string] [])).
Proof.
  split.
  - apply (proj1 (Capture_returns_stderr_or_raw_stdout Script scripted main_pane
             (fresh [("", "can't find pane", Some (ExecError "exit status 1"))%string] [])
             ""%string "can't find pane"%string
             (Some (ExecError "exit status 1")) [] eq_refl)
             (ExecError "exit status 1")); reflexivity.
  - apply (proj2 (Capture_returns_stderr_or_raw_stdout Script scripted main_pane
             (fresh [("$ ls" ++ String LF "", "", None)%string] [])
             ("$ ls" ++ String LF "")%string ""%string None [] eq_refl));
      reflexivity.
Defined.

Lemma target_encoding_witness :
  paneTarget main_pane = "main:2.1"%string
  /\ windowTarget main_pane = "main:2"%string
  /\ paneTarget main_pane
     = paneTarget {| ID := 1; SessionId := 9; SessionName := "main"; WindowId := 2;
                     WindowName := "other"; WindowIndex := 4; Active := false |}.
Proof.
  destruct (target_encoding Script scripted main_pane
              {| ID := 1; SessionId := 9; SessionName := "main"; WindowId := 2;
                 WindowName := "other"; WindowIndex := 4; Active := false |})
    as (_ & _ & Hmain & Hsame & _).
  destruct (Hmain eq_refl eq_refl eq_refl) as [Hp Hw].
  destruct (Hsame eq_refl eq_refl eq_refl) as [Hpq _].
  split; [exact Hp | split; [exact Hw | exact Hpq]].
Defined.

Lemma GetCurrentSize_panics_without_x_witness :
  GetCurrentSize scripted main_pane (fresh [("", "", None)%string] [])
  = Crash (inl (SliceBounds (-1) 0))
  /\ GetCurrentSize scripted main_pane
       (fresh [("80" ++ String LF "", "", None)%string] [])
     = Crash (inl (IndexRange 1 1))
  /\ exists w h,
       GetCurrentSize scripted main_pane
         (fresh [("80x24" ++ String LF "", "", None)%string] [])
       = Done (w, h, None)
           (called ["display-message"; "-p"; "-t"; paneTarget main_pane; "-F";
                    "#{pane_width}x#{pane_height}"]%string []
              (fresh [("80x24" ++ String LF "", "", None)%string] [])).
Proof.
  split; [|split].
  - apply (proj1 (GetCurrentSize_panics_without_x Script scripted main_pane
             (fresh [("", "", None)%string] []) ""%string ""%string [] eq_refl));
      reflexivity.
  - apply (proj1 (proj2 (GetCurrentSize_panics_without_x Script scripted main_pane
             (fresh [("80" ++ String LF "", "", None)%string] [])
             ("80" ++ String LF "")%string ""%string [] eq_refl)));
      [discriminate | reflexivity].
  - apply (proj2 (proj2 (GetCurrentSize_panics_without_x Script scripted main_pane
             (fresh [("80x24" ++ String LF "", "", None)%string] [])
             ("80x24" ++ String LF "")%string ""%string [] eq_refl)));
      discriminate.
Defined.

Lemma GetCurrentPath_drops_last_byte_witness :
  GetCurrentPath scripted main_pane (fresh [("", "", None)%string] [])
  = Crash (inl (SliceBounds (-1) 0))
  /\ GetCurrentPath scripted main_pane (fresh [("/home/user", "", None)%string] [])
     = Done ("/home/use"%string, None)
         (called ["display-message"; "-P"; "-F"; "#{pane_current_path}"]%string []
            (fresh [("/home/user", "", None)%string] [])).
Proof.
  split.
  - apply (proj1 (GetCurrentPath_drops_last_byte Script scripted main_pane
             (fresh [("", "", None)%string] []) ""%string ""%string [] eq_refl));
      reflexivity.
  - apply (proj1 (proj2 (GetCurrentPath_drops_last_byte Script scripted main_pane
             (fresh [("/home/user", "", None)%string] [])
             "/home/user"%string ""%string [] eq_refl))
             "/home/use"%string "r"%char); reflexivity.
Defined.

(* ================================================================= *)
(** * Further properties *)

(** ** Every line, every listing *)

Local Open Scope nat_scope.

Lemma dotted_inv (s : string) :
  dotted s = true -> nonempty s = true /\ count_byte LF s = 0.
Proof.
  unfold dotted. intros H. apply andb_prop in H as [Hne Hdot].
  split; [exact Hne|]. clear Hne.
  induction s as [|c s IH]; cbn [count_byte all_bytes] in *; [reflexivity|].
  apply andb_prop in Hdot as [Hc Hs]. unfold dot in Hc.
  destruct (Ascii.eqb c LF); [discriminate Hc | auto].
Qed.

(** A line ends the listing with an error, leaves the panes as they are, or
    adds one pane, whose numbers are those of an [int] that is not negative
    and whose names are not empty. *)
Lemma parseLine_cases (line : string) (panes : list Pane) :
  (exists e, parseLine line panes = Ret (inl e))
  \/ parseLine line panes = Ret (inr panes)
  \/ (exists p, parseLine line panes = Ret (inr (panes ++ [p])) /\ pane_listed p).
Proof.
  destruct (FindStringSubmatch_sound line)
    as [E | (pre & rest & sid & sname & wid & wname & widx & pid & f & _ & N1 & D2
             & N3 & D4 & N5 & N6 & _ & E)].
  - right. left. now apply parseLine_skip.
  - unfold parseLine. rewrite E.
    cbn [List.length Nat.leb paneParts index nth_error obind].
    destruct (Atoi sid) as [v1 [e1|]] eqn:A1; [left; eauto|]. cbn [obind].
    destruct (Atoi wid) as [v3 [e3|]] eqn:A3; [left; eauto|]. cbn [obind].
    destruct (Atoi widx) as [v5 [e5|]] eqn:A5; [left; eauto|]. cbn [obind].
    destruct (Atoi pid) as [v6 [e6|]] eqn:A6; [left; eauto|]. cbn [obind].
    right. right. eexists. split; [reflexivity|].
    destruct (Atoi_numeral_ok _ _ N1 A1) as [_ R1].
    destruct (Atoi_numeral_ok _ _ N3 A3) as [_ R3].
    destruct (Atoi_numeral_ok _ _ N5 A5) as [_ R5].
    destruct (Atoi_numeral_ok _ _ N6 A6) as [_ R6].
    destruct (dotted_inv _ D2) as [Ne2 L2].
    destruct (dotted_inv _ D4) as [Ne4 L4].
    unfold pane_listed. cbn [SessionId WindowId WindowIndex ID SessionName WindowName].
    repeat split; try assumption; lia.
Qed.

(** The loop never panics; what it returns is an error with no pane, or
    the panes it was given followed by at most one listed pane per line. *)
Lemma parseLines_cases (outLines : list string) (panes : list Pane) :
  (exists e, parseLines outLines panes = Ret ([], Some e))
  \/ (exists added,
        parseLines outLines panes = Ret (panes ++ added, None)
        /\ Forall pane_listed added
        /\ List.length added <= List.length outLines).
Proof.
  revert panes. induction outLines as [|line rest IH]; intros panes.
  - right. exists []. cbn [parseLines]. rewrite app_nil_r.
    repeat split; [constructor | cbn; lia].
  - cbn [parseLines].
    destruct (parseLine_cases line panes) as [[e ->] | [-> | (p & -> & Hp)]];
      cbn [obind].
    + left. eauto.
    + destruct (IH panes) as [[e He] | (added & He & Hall & Hlen)].
      * left. eauto.
      * right. exists added. repeat split; [exact He | exact Hall | cbn; lia].
    + destruct (IH (panes ++ [p])) as [[e He] | (added & He & Hall & Hlen)].
      * left. eauto.
      * right. exists (p :: added). rewrite He, <- app_assoc.
        repeat split; [now constructor | cbn; lia].
Qed.

Lemma genSplit_length (n : nat) (s : string) (sep : ascii) :
  count_byte sep s = n -> List.length (genSplit n s sep) = S n.
Proof.
  revert s. induction n as [|n IH]; intros s H; [reflexivity|].
  destruct (first_sep s sep) as (a & b & -> & Ha); [lia|].
  cbn [genSplit]. rewrite (IndexByte_first _ _ _ Ha), drop_app_cons.
  cbn [List.length]. f_equal. apply IH.
  rewrite count_byte_app, Ha in H. cbn [count_byte] in H.
  rewrite Ascii.eqb_refl in H. lia.
Qed.

(** [Split] yields one piece more than there are separators. *)
Lemma Split_length (s : string) (sep : ascii) :
  List.length (Split s sep) = S (count_byte sep s).
Proof. now apply genSplit_length. Qed.

Lemma Split_app (a b : string) (sep : ascii) :
  Split (a ++ String sep b) sep = Split a sep ++ Split b sep.
Proof.
  remember (count_byte sep a) as n eqn:Hn. revert a Hn.
  induction n as [|n IH]; intros a Hn.
  - symmetry in Hn. rewrite (Split_cons _ _ _ Hn), (Split_one _ _ Hn). reflexivity.
  - destruct (first_sep a sep) as (a1 & a2 & -> & Ha1); [lia|].
    rewrite app_assoc_s. cbn [append].
    rewrite !(Split_cons _ _ _ Ha1). cbn [List.app]. f_equal. apply IH.
    rewrite count_byte_app, Ha1 in Hn. cbn [count_byte] in Hn.
    rewrite Ascii.eqb_refl in Hn. lia.
Qed.

(** A line does to the panes it is given what it does to none. *)
Lemma parseLine_acc (line : string) (panes : list Pane) :
  parseLine line panes
  = match parseLine line [] with
    | Ret (inl e) => Ret (inl e)
    | Ret (inr added) => Ret (inr (panes ++ added))
    | Panic why => Panic why
    end.
Proof.
  destruct (FindStringSubmatch_sound line)
    as [E | (pre & rest & sid & sname & wid & wname & widx & pid & f & _ & _ & _
             & _ & _ & _ & _ & _ & E)].
  - rewrite !(parseLine_skip _ _ E). now rewrite app_nil_r.
  - unfold parseLine. rewrite E.
    cbn [List.length Nat.leb paneParts index nth_error obind].
    destruct (Atoi sid) as [v1 [e1|]]; [reflexivity|]. cbn [obind].
    destruct (Atoi wid) as [v3 [e3|]]; [reflexivity|]. cbn [obind].
    destruct (Atoi widx) as [v5 [e5|]]; [reflexivity|]. cbn [obind].
    destruct (Atoi pid) as [v6 [e6|]]; reflexivity.
Qed.

Lemma parseLines_acc (outLines : list string) (panes : list Pane) :
  parseLines outLines panes
  = match parseLines outLines [] with
    | Ret (added, None) => Ret (panes ++ added, None)
    | other => other
    end.
Proof.
  revert panes. induction outLines as [|line rest IH]; intros panes.
  - cbn [parseLines]. now rewrite app_nil_r.
  - cbn [parseLines]. rewrite (parseLine_acc line panes).
    destruct (parseLine line []) as [[e | added] | why]; cbn [obind];
      [reflexivity | | reflexivity].
    rewrite (IH (panes ++ added)), (IH added).
    destruct (parseLines rest []) as [[more [e|]] | why]; [reflexivity | | reflexivity].
    now rewrite app_assoc.
Qed.

(** The lines of two texts, one after the other. *)
Lemma parseLines_app (ls1 ls2 : list string) (panes : list Pane) :
  parseLines (ls1 ++ ls2) panes
  = match parseLines ls1 panes with
    | Ret (panes1, None) => parseLines ls2 panes1
    | other => other
    end.
Proof.
  revert panes. induction ls1 as [|line rest IH]; intros panes.
  - reflexivity.
  - cbn [List.app parseLines].
    destruct (parseLine_cases line panes) as [[e ->] | [-> | (p & -> & _)]];
      cbn [obind]; [reflexivity | apply IH | apply IH].
Qed.

(** ** Records with text around them and [:] in their names *)

(** No suffix of a text without [:@] begins with [:@]. *)
Lemma colon_at_free_suffix (x w : string) :
  colon_at_free (x ++ String colon (String "@" w)) = false.
Proof.
  induction x as [|c x IH]; cbn [append colon_at_free].
  - reflexivity.
  - rewrite IH. apply andb_false_r.
Qed.

Lemma colon_at_free_app (a b : string) :
  colon_at_free a = true -> colon_at_free b = true -> at_head b = false ->
  colon_at_free (a ++ b) = true.
Proof.
  intros Ha Hb Hh. induction a as [|c a IH]; cbn [append]; [exact Hb|].
  cbn [colon_at_free] in *. apply andb_prop in Ha as [Hc Ha].
  rewrite (IH Ha), andb_true_r.
  destruct a as [|d a]; cbn [append] in *; [|exact Hc].
  now rewrite Hh, andb_false_r.
Qed.

Lemma colon_free_colon_at_free (s : string) :
  count_byte colon s = 0 -> colon_at_free s = true.
Proof.
  induction s as [|c s IH]; cbn [count_byte colon_at_free]; [reflexivity|].
  destruct (Ascii.eqb c colon); [discriminate|]. intros H. now rewrite IH.
Qed.

Lemma numeral_at_head (s t : string) :
  numeral s = true -> at_head (s ++ t) = false.
Proof.
  intros H. apply andb_prop in H as [Hne Hd].
  destruct s as [|c s]; [discriminate Hne|]. cbn [append at_head].
  cbn [all_bytes] in Hd. apply andb_prop in Hd as [Hc _].
  destruct (Ascii.eqb_spec c "@") as [-> | _]; [discriminate Hc | reflexivity].
Qed.

(** A group over a run that no longer run can replace. *)
Lemma exec_cap_found (i : nat) (p : ascii -> bool) (r : regex)
      (u v : string) (cs : caps) k (res : caps) :
  all_bytes p u = true -> nonempty u = true ->
  (forall a t w cs', v = (String a t ++ w)%string -> exec r w cs' k = None) ->
  exec r v (set_cap i u cs) k = Some res ->
  exec (Cat (Cap i (Plus p)) r) (u ++ v) cs k = Some res.
Proof.
  intros Hu Hne Hlater H. cbn [exec].
  apply plus_greedy_found; [exact Hu | exact Hne | |].
  - now rewrite consumed_app.
  - apply plus_greedy_none. intros a t w E. now apply (Hlater a t w).
Qed.

Lemma readable_inv (r : row) :
  readable r = true ->
  numeral (session_id r) = true /\ dotted (session_name r) = true
  /\ numeral (window_id r) = true /\ dotted (window_name r) = true
  /\ colon_at_free (String colon (window_name r)) = true
  /\ numeral (window_index r) = true /\ numeral (pane_id r) = true.
Proof.
  unfold readable. intros H. do 6 (apply andb_prop in H as [H ?]).
  repeat split; assumption.
Qed.

Lemma flag_zero_one (b : bool) :
  exists f, flag b = String f "" /\ zero_one f = true
            /\ Ascii.eqb f colon = false /\ Ascii.eqb f "@" = false.
Proof. destruct b; eexists; repeat split. Qed.

(** A readable record is read back, whatever stands after it without
    a [:]. *)
Lemma exec_pieces_record (r : row) (post : string) (cs : caps) k (res : caps) :
  readable r = true -> count_byte colon post = 0 ->
  k post
    (set_cap 7 (flag (pane_active r)) (set_cap 6 (pane_id r)
      (set_cap 5 (window_index r) (set_cap 4 (window_name r)
        (set_cap 3 (window_id r) (set_cap 2 (session_name r)
          (set_cap 1 (session_id r) cs))))))) = Some res ->
  exec pieces (render r ++ post) cs k = Some res.
Proof.
  intros H Hpost Hk.
  destruct (readable_inv _ H) as (N1 & D2 & N3 & D4 & F4 & N5 & N6).
  destruct r as [sid sname wid wname widx pid act];
    cbn [session_id session_name window_id window_name window_index pane_id
         pane_active] in *.
  destruct (numeral_inv _ N1) as (Hsid1 & Hsid2 & Hsid3).
  apply andb_prop in D2 as [Hsn1 Hsn2].
  destruct (numeral_inv _ N3) as (Hwid1 & Hwid2 & Hwid3).
  apply andb_prop in D4 as [Hwn1 Hwn2].
  destruct (numeral_inv _ N5) as (Hwix1 & Hwix2 & Hwix3).
  destruct (numeral_inv _ N6) as (Hpid1 & Hpid2 & Hpid3).
  destruct (flag_zero_one act) as (f & Ef & Hf & Hfc & Hfa).
  unfold render, pieces; cbn [session_id session_name window_id
    window_name window_index pane_id pane_active].
  rewrite Ef in *. clear H.
  repeat (rewrite ?app_assoc_s; cbn [append]).
  rewrite exec_lit.
  apply exec_cap_stop; [assumption | assumption | reflexivity |].
  rewrite exec_lit.
  apply exec_cap_found; [assumption | assumption | |].
  { intros a t w cs' E.
    match goal with |- ?lhs = None => destruct lhs as [x|] eqn:Hx end;
      [exfalso | reflexivity].
    apply exec_lit_inv in Hx as (w1 & -> & Hx).
    apply exec_lit_inv in Hx as (w2 & -> & _).
    cbn [append] in E. injection E as _ E.
    assert (Hfree : colon_at_free
              (String "@" (wid ++ String ":" (wname ++ String ":" (widx
                 ++ String ":" (String "%" (pid ++ String ":" (String f post)))))))
              = true).
    { cbn [colon_at_free at_head]. change (Ascii.eqb "@" colon) with false.
      cbn [andb negb].
      apply colon_at_free_app;
        [now apply colon_free_colon_at_free | | reflexivity].
      change (String ":" (wname ++ String ":" (widx ++ String ":"
                (String "%" (pid ++ String ":" (String f post))))))
        with (String colon wname ++ String ":" (widx ++ String ":"
                (String "%" (pid ++ String ":" (String f post)))))%string.
      apply colon_at_free_app; [exact F4 | | reflexivity].
      cbn [colon_at_free]. rewrite (numeral_at_head _ _ N5). cbn [andb negb].
      apply colon_at_free_app;
        [now apply colon_free_colon_at_free | | reflexivity].
      cbn [colon_at_free at_head]. change (Ascii.eqb "%" "@") with false.
      change (Ascii.eqb "%" colon) with false. cbn [andb negb].
      apply colon_at_free_app;
        [now apply colon_free_colon_at_free | | reflexivity].
      cbn [colon_at_free at_head]. rewrite Hfa, Hfc. cbn [andb negb].
      now apply colon_free_colon_at_free. }
    rewrite E in Hfree. rewrite colon_at_free_suffix in Hfree. discriminate Hfree. }
  rewrite !exec_lit.
  apply exec_cap_stop; [assumption | assumption | reflexivity |].
  rewrite exec_lit.
  apply exec_cap_last; [assumption | assumption | |].
  { cbn [colons count_byte Ascii.eqb Bool.eqb colon].
    repeat (rewrite count_byte_app; cbn [count_byte Ascii.eqb Bool.eqb colon]).
    change (Ascii.eqb f ":") with (Ascii.eqb f colon). rewrite Hfc.
    rewrite Hwix3, Hpid3, Hpost. simpl. lia. }
  rewrite exec_lit.
  apply exec_cap_stop; [assumption | assumption | reflexivity |].
  rewrite !exec_lit.
  apply exec_cap_stop; [assumption | assumption | reflexivity |].
  rewrite exec_lit. cbn [exec]. rewrite Hf.
  change (String f post) with (String f "" ++ post)%string.
  rewrite consumed_app. exact Hk.
Qed.

(** A readable record is found in its line: before it any text without
    [$], after it any text without [:]. *)
Lemma FindStringSubmatch_record (pre post : string) (r : row) :
  readable r = true -> count_byte "$" pre = 0 -> count_byte colon post = 0 ->
  FindStringSubmatch re (pre ++ render r ++ post)
  = [ render r; session_id r; session_name r; window_id r; window_name r;
      window_index r; pane_id r; flag (pane_active r) ].
Proof.
  intros H Hpre Hpost. unfold FindStringSubmatch.
  rewrite (search_skip _ _ _ Hpre).
  assert (Hm : match_here (prog re) (numSubexp re) (render r ++ post)
               = Some [ render r; session_id r; session_name r; window_id r;
                        window_name r; window_index r; pane_id r;
                        flag (pane_active r) ]).
  { unfold match_here. rewrite exec_pieces.
    apply exec_pieces_record; [exact H | exact Hpost |].
    rewrite consumed_app. reflexivity. }
  now rewrite (search_hit _ _ _ _ Hm).
Qed.

Lemma dotted_line (s : string) : dotted s = true -> count_byte LF s = 0.
Proof. intros H. now destruct (dotted_inv _ H). Qed.

Lemma render_readable_line (r : row) :
  readable r = true -> count_byte LF (render r) = 0.
Proof.
  intros H. destruct (readable_inv _ H) as (N1 & D2 & N3 & D4 & _ & N5 & N6).
  unfold render. cbn [append count_byte].
  repeat (rewrite count_byte_app; cbn [count_byte]).
  rewrite (numeral_line _ N1), (dotted_line _ D2), (numeral_line _ N3),
          (dotted_line _ D4), (numeral_line _ N5), (numeral_line _ N6).
  now destruct (pane_active r).
Qed.

Lemma entry_ok_inv (pre post : string) (r : row) :
  entry_ok (Record_in pre r post) = true ->
  readable r = true /\ decodable r = true /\ count_byte "$" pre = 0
  /\ count_byte LF pre = 0 /\ count_byte colon post = 0 /\ count_byte LF post = 0.
Proof.
  cbn [entry_ok]. unfold one_line. intros H.
  do 5 (apply andb_prop in H as [H ?]).
  repeat match goal with H : (_ =? _) = true |- _ => apply Nat.eqb_eq in H end.
  repeat split; assumption.
Qed.

Lemma entry_line (e : entry) : entry_ok e = true -> count_byte LF (entry_text e) = 0.
Proof.
  destruct e as [pre r post | s].
  - intros H. destruct (entry_ok_inv _ _ _ H) as (Hr & _ & _ & Lpre & _ & Lpost).
    cbn [entry_text]. rewrite !count_byte_app, Lpre, Lpost.
    now rewrite (render_readable_line _ Hr).
  - cbn [entry_ok entry_text]. unfold one_line. intros H.
    apply andb_prop in H as [H _]. now apply Nat.eqb_eq.
Qed.

Lemma entries_lines (es : list entry) :
  forallb entry_ok es = true -> lines_ok (map entry_text es).
Proof.
  induction es as [|e es IH]; cbn [forallb map]; intros H; [constructor|].
  apply andb_prop in H as [He H]. constructor; [now apply entry_line | now apply IH].
Qed.

(** A line with a readable record in it adds the pane of the record. *)
Lemma parseLine_record (pre post : string) (r : row) (panes : list Pane) :
  entry_ok (Record_in pre r post) = true ->
  parseLine (pre ++ render r ++ post) panes = Ret (inr (panes ++ [decode r])).
Proof.
  intros H. destruct (entry_ok_inv _ _ _ H) as (Hr & Hdec & Hpre & _ & Hpost & _).
  unfold parseLine. rewrite (FindStringSubmatch_record _ _ _ Hr Hpre Hpost).
  destruct (readable_inv _ Hr) as (N1 & _ & N3 & _ & _ & N5 & N6).
  destruct (decodable_inv _ Hdec) as (F1 & F3 & F5 & F6).
  cbn [List.length Nat.leb paneParts index nth_error obind].
  rewrite (Atoi_numeral _ N1 F1), (Atoi_numeral _ N3 F3),
          (Atoi_numeral _ N5 F5), (Atoi_numeral _ N6 F6).
  cbn [obind]. rewrite flag_eqb. reflexivity.
Qed.

Lemma parseLines_entries (es : list entry) (panes : list Pane) :
  forallb entry_ok es = true ->
  parseLines (map entry_text es) panes = Ret (panes ++ entries_panes es, None).
Proof.
  revert panes. induction es as [|e es IH]; intros panes H.
  - cbn. now rewrite app_nil_r.
  - cbn [forallb] in H. apply andb_prop in H as [He H].
    cbn [map parseLines]. destruct e as [pre r post | s]; cbn [entry_text].
    + rewrite (parseLine_record _ _ _ _ He). cbn [obind].
      rewrite (IH _ H). cbn [entries_panes]. now rewrite <- app_assoc.
    + cbn [entry_ok] in He. apply andb_prop in He as [_ Hn].
      rewrite parseLine_skip
        by (unfold no_match in Hn; now destruct (FindStringSubmatch re s)).
      cbn [obind]. now rewrite (IH _ H).
Qed.

(** ** Lines without [$] *)

Lemma FindStringSubmatch_no_dollar (line : string) :
  count_byte "$" line = 0 -> FindStringSubmatch re line = [].
Proof.
  intros H. unfold FindStringSubmatch.
  rewrite <- (app_empty_r line), (search_skip _ _ _ H). reflexivity.
Qed.

Lemma Split_free (c sep : ascii) (s : string) :
  count_byte c s = 0 -> Forall (fun l => count_byte c l = 0) (Split s sep).
Proof.
  remember (count_byte sep s) as n eqn:Hn. revert s Hn.
  induction n as [|n IH]; intros s Hn Hc.
  - symmetry in Hn. rewrite (Split_one _ _ Hn). now repeat constructor.
  - destruct (first_sep s sep) as (a & b & -> & Ha); [lia|].
    rewrite (Split_cons _ _ _ Ha).
    rewrite count_byte_app in Hc, Hn. cbn [count_byte] in Hc, Hn.
    rewrite Ascii.eqb_refl in Hn.
    constructor; [lia|]. apply IH; [lia|].
    destruct (Ascii.eqb sep c); lia.
Qed.

Lemma parseLines_no_dollar (outLines : list string) (panes : list Pane) :
  Forall (fun l => count_byte "$" l = 0) outLines ->
  parseLines outLines panes = Ret (panes, None).
Proof.
  intros H. revert panes. induction H as [|l ls Hl _ IH]; intros panes.
  - reflexivity.
  - cbn [parseLines].
    rewrite (parseLine_skip _ _ (FindStringSubmatch_no_dollar _ Hl)). apply IH.
Qed.

(** ** Decimal numerals: [%d] after [Atoi] *)

Local Open Scope Z_scope.

Lemma digits_uint (s : string) :
  all_bytes is_digit s = true ->
  exists d, NilEmpty.string_of_uint d = s.
Proof.
  induction s as [|c s IH]; cbn [all_bytes]; intros H.
  - exists Decimal.Nil. reflexivity.
  - apply andb_prop in H as [Hc Hs]. destruct (IH Hs) as [d <-].
    destruct c as [[] [] [] [] [] [] [] []]; try discriminate Hc;
      first [ exists (Decimal.D0 d); reflexivity | exists (Decimal.D1 d); reflexivity
            | exists (Decimal.D2 d); reflexivity | exists (Decimal.D3 d); reflexivity
            | exists (Decimal.D4 d); reflexivity | exists (Decimal.D5 d); reflexivity
            | exists (Decimal.D6 d); reflexivity | exists (Decimal.D7 d); reflexivity
            | exists (Decimal.D8 d); reflexivity | exists (Decimal.D9 d); reflexivity ].
Qed.

Lemma string_of_uint_nil (d : Decimal.uint) :
  NilEmpty.string_of_uint d = EmptyString -> d = Decimal.Nil.
Proof. destruct d; cbn; intros H; [reflexivity | discriminate H ..]. Qed.

(** [%d] writes a numeral without leading zero as it was read. *)
Lemma itoa_dec_value (s : string) :
  canonical s = true -> itoa (dec_value s) = s.
Proof.
  unfold canonical. intros H. apply andb_prop in H as [Hnum Hlead].
  apply andb_prop in Hnum as [Hne Hdig].
  destruct (digits_uint _ Hdig) as [d <-].
  rewrite <- of_uint_dec. unfold itoa.
  change (Z.of_N (Pos.of_uint d)) with (Z.of_int (Decimal.Pos d)).
  rewrite DecimalZ.to_of. cbn [Decimal.norm NilZero.string_of_int].
  assert (Hd : Decimal.unorm d = d /\ d <> Decimal.Nil).
  { destruct d as [|d|d|d|d|d|d|d|d|d|d];
      try (split; [reflexivity | discriminate]).
    - discriminate Hne.
    - cbn [NilEmpty.string_of_uint] in Hlead.
      destruct (NilEmpty.string_of_uint d) eqn:E; [|discriminate Hlead].
      apply string_of_uint_nil in E. subst d. split; [reflexivity | discriminate]. }
  destruct Hd as [-> Hnil]. now destruct d.
Qed.

Lemma digits_free (c : ascii) (s : string) :
  is_digit c = false -> all_bytes is_digit s = true -> count_byte c s = 0%nat.
Proof.
  intros Hc. induction s as [|a s IH]; cbn [all_bytes count_byte]; [reflexivity|].
  intros H. apply andb_prop in H as [Ha Hs].
  destruct (Ascii.eqb_spec a c) as [-> | _]; [congruence | auto].
Qed.

(** [%d] writes digits, after a [-] for a negative number. *)
Lemma itoa_shape (n : Z) :
  exists ds, numeral ds = true
             /\ itoa n = ((if Z.ltb n 0 then "-" else "") ++ ds)%string.
Proof.
  unfold itoa. destruct n as [|p|p]; cbn [Z.to_int NilZero.string_of_int Z.ltb Z.compare].
  - exists "0"%string. split; reflexivity.
  - destruct (string_of_uint_pos p) as [-> Hne].
    exists (NilEmpty.string_of_uint (Pos.to_uint p)). split; [|reflexivity].
    unfold numeral. now rewrite Hne, string_of_uint_digits.
  - destruct (string_of_uint_pos p) as [-> Hne].
    exists (NilEmpty.string_of_uint (Pos.to_uint p)). split; [|reflexivity].
    unfold numeral. now rewrite Hne, string_of_uint_digits.
Qed.

Lemma itoa_free (c : ascii) (n : Z) :
  is_digit c = false -> Ascii.eqb c "-" = false -> count_byte c (itoa n) = 0%nat.
Proof.
  intros Hc Hm. destruct (itoa_shape n) as (ds & Hds & ->).
  apply andb_prop in Hds as [_ Hdig].
  rewrite count_byte_app, (digits_free _ _ Hc Hdig).
  destruct (Z.ltb n 0); cbn [count_byte]; [|reflexivity].
  rewrite Ascii.eqb_sym, Hm. reflexivity.
Qed.

Lemma itoa_inj (a b : Z) : itoa a = itoa b -> a = b.
Proof.
  unfold itoa. intros H.
  assert (Hnorm : forall n, Z.to_int n <> Decimal.Pos Decimal.Nil
                            /\ Z.to_int n <> Decimal.Neg Decimal.Nil).
  { intros [|p|p]; cbn [Z.to_int]; split; try discriminate;
      intros E; injection E as E; exact (DecimalPos.Unsigned.to_uint_nonnil _ E). }
  apply (f_equal NilZero.int_of_string) in H.
  rewrite !NilZero.isi in H by apply Hnorm.
  injection H as H. apply (f_equal Z.of_int) in H.
  now rewrite !DecimalZ.of_to in H.
Qed.

(** ** Cutting a text at a separator *)

Local Open Scope nat_scope.

(** At the first separator. *)
Lemma cut_first (sep : ascii) (a b x y : string) :
  count_byte sep a = 0 -> count_byte sep b = 0 ->
  (a ++ String sep x = b ++ String sep y)%string -> a = b /\ x = y.
Proof.
  intros Ha Hb H.
  apply app_eq_app in H as [(t & -> & Ht) | (c & t & -> & Ht)].
  - destruct t as [|d t]; cbn [append] in Ht.
    + injection Ht as ->. now rewrite app_empty_r.
    + injection Ht as <- _. rewrite count_byte_app in Hb. cbn [count_byte] in Hb.
      rewrite Ascii.eqb_refl in Hb. lia.
  - cbn [append] in Ht. injection Ht as <- _.
    rewrite count_byte_app in Ha. cbn [count_byte] in Ha.
    rewrite Ascii.eqb_refl in Ha. lia.
Qed.

(** At the last separator. *)
Lemma cut_last (sep : ascii) (a b x y : string) :
  count_byte sep x = 0 -> count_byte sep y = 0 ->
  (a ++ String sep x = b ++ String sep y)%string -> a = b /\ x = y.
Proof.
  intros Hx Hy H.
  apply app_eq_app in H as [(t & -> & Ht) | (c & t & -> & Ht)].
  - destruct t as [|d t]; cbn [append] in Ht.
    + injection Ht as ->. now rewrite app_empty_r.
    + injection Ht as _ ->. rewrite count_byte_app in Hx. cbn [count_byte] in Hx.
      rewrite Ascii.eqb_refl in Hx. lia.
  - cbn [append] in Ht. injection Ht as _ ->.
    rewrite count_byte_app in Hy. cbn [count_byte] in Hy.
    rewrite Ascii.eqb_refl in Hy. lia.
Qed.

Lemma render_merged (r1 r2 : row) (mid : string) :
  render (merged r1 mid r2) = (render r1 ++ mid ++ render r2)%string.
Proof.
  unfold render, merged; cbn [session_id session_name window_id window_name
    window_index pane_id pane_active].
  repeat (rewrite ?app_assoc_s; cbn [append]). reflexivity.
Qed.

Lemma readable_merged (r1 r2 : row) (mid : string) :
  readable r1 = true -> readable r2 = true -> count_byte LF mid = 0 ->
  readable (merged r1 mid r2) = true.
Proof.
  intros H1 H2 Hmid.
  destruct (readable_inv _ H1) as (A1 & A2 & A3 & A4 & _ & A5 & A6).
  destruct (readable_inv _ H2) as (B1 & B2 & B3 & B4 & B4' & B5 & B6).
  unfold readable, merged; cbn [session_id session_name window_id window_name
    window_index pane_id pane_active].
  rewrite A1, B3, B4, B4', B5, B6. cbn [andb].
  rewrite !andb_true_r. unfold dotted.
  destruct (dotted_inv _ A2) as [Ne2 L2].
  assert (Hne : nonempty
    (session_name r1 ++ ":@" ++ window_id r1 ++ ":" ++ window_name r1 ++ ":"
       ++ window_index r1 ++ ":%" ++ pane_id r1 ++ ":" ++ flag (pane_active r1)
       ++ mid ++ "$" ++ session_id r2 ++ ":" ++ session_name r2) = true).
  { destruct (session_name r1); [discriminate Ne2 | reflexivity]. }
  rewrite Hne. cbn [andb]. apply one_line_dot.
  cbn [append]. repeat (rewrite count_byte_app; cbn [count_byte]).
  rewrite L2, (numeral_line _ A3), (dotted_line _ A4), (numeral_line _ A5),
          (numeral_line _ A6), Hmid, (numeral_line _ B1), (dotted_line _ B2).
  now destruct (pane_active r1).
Qed.

Lemma hd_canonical (r : row) :
  well_formed r = true -> decodable r = true ->
  canonical (window_id r) = true -> canonical (pane_id r) = true ->
  paneTarget (decode r) = listed_pane_target r
  /\ windowTarget (decode r) = listed_window_target r.
Proof.
  intros _ _ Hw Hp.
  rewrite paneTarget_eq, windowTarget_eq.
  unfold decode, listed_pane_target, listed_window_target;
    cbn [SessionName WindowId ID].
  now rewrite (itoa_dec_value _ Hw), (itoa_dec_value _ Hp).
Qed.

(* ================================================================= *)
(** * Further properties of the operations, for any command runner *)

Arguments bind {World A B} m f _.
Arguments load {World} p _.

Section FurtherRunner.

Variable World : Type.
Variable RunCmd : list string -> World -> reply * World.
Variable ErrorText : error -> string.

(** X1: [ListPanes] never panics.  It calls the runner once, with
    [list-panes -F <format>] followed by the caller's arguments, and
    returns; when it returns an error it returns no pane; when the runner
    fails, the error is the runner's, whatever the standard output holds. *)
Theorem ListPanes_always_returns (args : list string) (st : state World) :
  (exists panes err w',
     ListPanes RunCmd args st
     = Done (panes, err) (called (["list-panes"; "-F"; format] ++ args) w' st)
     /\ (err <> None -> panes = []))
  /\ (forall out serr e w',
        RunCmd (["list-panes"; "-F"; format] ++ args) (world st)
        = ((out, serr, Some e), w') ->
        ListPanes RunCmd args st
        = Done ([], Some e) (called (["list-panes"; "-F"; format] ++ args) w' st)).
Proof.
  split.
  - destruct (RunCmd (["list-panes"; "-F"; format] ++ args) (world st))
      as [[[out serr] [e|]] w'] eqn:Hrun.
    + exists [], (Some e), w'. split; [|reflexivity].
      unfold ListPanes, bind. now rewrite (runCmd_eq _ _ _ _ _ _ Hrun).
    + rewrite (ListPanes_ok _ _ _ _ _ _ _ Hrun). unfold lift.
      destruct (parseLines_cases (Split out LF) []) as [[e ->] | (added & -> & _)].
      * exists [], (Some e), w'. split; reflexivity.
      * exists added, None, w'. split; [reflexivity | congruence].
  - intros out serr e w' Hrun.
    unfold ListPanes, bind. now rewrite (runCmd_eq _ _ _ _ _ _ Hrun).
Qed.

(** X2: every pane [ListPanes] returns, on any output of the runner, has a
    session id, a window id, a window index and a pane index between 0 and
    the largest [int], and a session name and a window name that are not
    empty and hold no line terminator. *)
Theorem ListPanes_panes_are_listed
    (args : list string) (st st' : state World)
    (panes : list Pane) (err : option error) :
  ListPanes RunCmd args st = Done (panes, err) st' ->
  Forall pane_listed panes.
Proof.
  unfold ListPanes, bind, runCmd.
  destruct (RunCmd (["list-panes"; "-F"; format] ++ args) (world st))
    as [[[out serr] [e|]] w'].
  - unfold ret. intros H. injection H as <- _ _. constructor.
  - unfold lift, parseListing.
    destruct (parseLines_cases (Split out LF) []) as [[e ->] | (added & -> & Hall & _)];
      intros H; injection H as <- _ _; [constructor | exact Hall].
Qed.

(** X3: [ListPanes] returns at most one pane for each line of the
    standard output. *)
Theorem ListPanes_one_pane_per_line
    (args : list string) (st st' : state World) (out serr : string) (w' : World)
    (panes : list Pane) (err : option error) :
  RunCmd (["list-panes"; "-F"; format] ++ args) (world st)
  = ((out, serr, None), w') ->
  ListPanes RunCmd args st = Done (panes, err) st' ->
  List.length panes <= S (count_byte LF out).
Proof.
  intros Hrun. rewrite (ListPanes_ok _ _ _ _ _ _ _ Hrun). unfold lift.
  destruct (parseLines_cases (Split out LF) []) as [[e ->] | (added & -> & _ & Hlen)];
    intros H; injection H as <- _ _.
  - cbn. lia.
  - now rewrite Split_length in Hlen.
Qed.

(** X4: a standard output without any [$] yields no pane and no error:
    text that is no listing at all is not told apart from an empty
    listing. *)
Theorem ListPanes_without_dollar
    (args : list string) (st : state World) (out serr : string) (w' : World) :
  count_byte "$" out = 0 ->
  RunCmd (["list-panes"; "-F"; format] ++ args) (world st)
  = ((out, serr, None), w') ->
  ListPanes RunCmd args st
  = Done ([], None) (called (["list-panes"; "-F"; format] ++ args) w' st).
Proof.
  intros Hfree Hrun. rewrite (ListPanes_ok _ _ _ _ _ _ _ Hrun).
  now rewrite (parseLines_no_dollar _ _ (Split_free _ _ _ Hfree)).
Qed.

(** X5: the pattern is not anchored and its name groups take [:]: a line
    is decoded to the pane of the record in it also when text without [$]
    stands before the record, text without [:] stands after it, the session
    name holds [:] or any other byte, and the window name holds [:], as
    long as the window name does not begin with [@] and has no [:@]
    inside. *)
Theorem ListPanes_reads_records_in_lines
    (args : list string) (st : state World) (es : list entry)
    (serr : string) (w' : World) :
  forallb entry_ok es = true ->
  RunCmd (["list-panes"; "-F"; format] ++ args) (world st)
  = ((Join (map entry_text es) (String LF ""), serr, None), w') ->
  ListPanes RunCmd args st
  = Done (entries_panes es, None)
         (called (["list-panes"; "-F"; format] ++ args) w' st).
Proof.
  intros Hok Hrun. rewrite (ListPanes_ok _ _ _ _ _ _ _ Hrun).
  destruct es as [|e es]; [reflexivity|].
  rewrite Split_Join_lines; [|discriminate | now apply entries_lines].
  now rewrite (parseLines_entries _ _ Hok).
Qed.

(** X6: two records on one line give one pane, not two, when both records
    are readable (numerals for the ids, names within the line, window names
    that do not begin with [@] and hold no [:@]), the text between them
    holds no line terminator, and the first record's session id and the
    second record's window id, window index and pane id fit [int]: the
    session id of the pane is the one of the first record, its session name
    runs from the first record's session name to the second record's, and
    its window id, window name, window index, pane index and flag are those
    of the second record. *)
Theorem ListPanes_two_records_on_one_line
    (args : list string) (st : state World) (r1 r2 : row) (mid serr : string)
    (w' : World) :
  readable r1 = true -> readable r2 = true -> count_byte LF mid = 0 ->
  decodable (merged r1 mid r2) = true ->
  RunCmd (["list-panes"; "-F"; format] ++ args) (world st)
  = (((render r1 ++ mid ++ render r2)%string, serr, None), w') ->
  ListPanes RunCmd args st
  = Done ([ {| ID := dec_value (pane_id r2);
               SessionId := dec_value (session_id r1);
               SessionName := session_name (merged r1 mid r2);
               WindowId := dec_value (window_id r2);
               WindowName := window_name r2;
               WindowIndex := dec_value (window_index r2);
               Active := pane_active r2 |} ], None)
         (called (["list-panes"; "-F"; format] ++ args) w' st).
Proof.
  intros H1 H2 Hmid Hdec Hrun. rewrite (ListPanes_ok _ _ _ _ _ _ _ Hrun).
  pose proof (readable_merged _ _ _ H1 H2 Hmid) as Hm.
  rewrite <- render_merged.
  rewrite Split_one by (now apply render_readable_line).
  cbn [parseLines].
  rewrite <- (app_empty_r (render (merged r1 mid r2))).
  change (render (merged r1 mid r2) ++ "")%string
    with ("" ++ render (merged r1 mid r2) ++ "")%string.
  rewrite parseLine_record; [reflexivity|].
  cbn [entry_ok]. now rewrite Hm, Hdec.
Qed.

(** X7: the listing of a text followed by a line terminator and a second
    text is the listing of the first followed by the listing of the second;
    an error in either is the error of the whole, the first one first. *)
Theorem ListPanes_of_two_texts
    (args : list string) (st : state World) (a b serr : string) (w' : World) :
  RunCmd (["list-panes"; "-F"; format] ++ args) (world st)
  = (((a ++ String LF b)%string, serr, None), w') ->
  (forall pa e, parseListing a = Ret (pa, Some e) ->
     ListPanes RunCmd args st
     = Done ([], Some e) (called (["list-panes"; "-F"; format] ++ args) w' st))
  /\ (forall pa pb e, parseListing a = Ret (pa, None) ->
        parseListing b = Ret (pb, Some e) ->
        ListPanes RunCmd args st
        = Done ([], Some e) (called (["list-panes"; "-F"; format] ++ args) w' st))
  /\ (forall pa pb, parseListing a = Ret (pa, None) ->
        parseListing b = Ret (pb, None) ->
        ListPanes RunCmd args st
        = Done (pa ++ pb, None)
               (called (["list-panes"; "-F"; format] ++ args) w' st)).
Proof.
  intros Hrun. rewrite (ListPanes_ok _ _ _ _ _ _ _ Hrun).
  rewrite Split_app, parseLines_app. unfold parseListing.
  repeat split.
  - intros pa e Ha. rewrite Ha.
    destruct (parseLines_cases (Split a LF) []) as [[e' He] | (added & He & _)];
      rewrite He in Ha; [|discriminate Ha].
    now injection Ha as <- <-.
  - intros pa pb e Ha Hb. rewrite Ha, parseLines_acc, Hb.
    destruct (parseLines_cases (Split b LF) []) as [[e' He] | (added & He & _)];
      rewrite He in Hb; [|discriminate Hb].
    now injection Hb as <- <-.
  - intros pa pb Ha Hb. now rewrite Ha, parseLines_acc, Hb.
Qed.

(** X8: for a listing whose window ids and pane ids are written without
    leading zero, the targets of the panes [ListPanes] returns are the
    listed texts put together: session name, [:], window id, and for the
    pane target [.] and the pane id. *)
Theorem ListPanes_targets_are_the_listed_texts
    (args : list string) (st : state World) (items : list item)
    (serr : string) (w' : World) :
  forallb item_ok items = true ->
  forallb (fun r => canonical (window_id r) && canonical (pane_id r))
          (rows_of items) = true ->
  RunCmd (["list-panes"; "-F"; format] ++ args) (world st)
  = ((Join (map text_of items) (String LF ""), serr, None), w') ->
  exists panes,
    ListPanes RunCmd args st
    = Done (panes, None) (called (["list-panes"; "-F"; format] ++ args) w' st)
    /\ map paneTarget panes = map listed_pane_target (rows_of items)
    /\ map windowTarget panes = map listed_window_target (rows_of items).
Proof.
  intros Hok Hcan Hrun. exists (panes_of items). split.
  - rewrite (ListPanes_ok _ _ _ _ _ _ _ Hrun).
    destruct items as [|i items]; [reflexivity|].
    rewrite Split_Join_lines; [|discriminate | now apply items_lines].
    rewrite <- (app_nil_r (map text_of (i :: items))).
    now rewrite (parseLines_items _ _ _ Hok).
  - clear Hrun. induction items as [|[r|s] items IH]; cbn [panes_of rows_of map].
    + split; reflexivity.
    + cbn [forallb item_ok rows_of] in Hok, Hcan.
      apply andb_prop in Hok as [Hr Hok]. apply andb_prop in Hcan as [Hc Hcan].
      apply andb_prop in Hr as [Hwf Hdec]. apply andb_prop in Hc as [Hw Hp].
      destruct (hd_canonical _ Hwf Hdec Hw Hp) as [-> ->].
      destruct (IH Hok Hcan) as [-> ->]. split; reflexivity.
    + cbn [forallb] in Hok. apply andb_prop in Hok as [_ Hok]. now apply IH.
Qed.

(** X9: the target strings tell panes apart: two panes with the same pane
    target have the same session name, window id and pane index; two panes
    with the same window target have the same session name and window id;
    and no pane target is a window target.  This holds whatever bytes the
    session names hold. *)
Theorem targets_are_injective (p q : Pane) :
  (paneTarget p = paneTarget q ->
   SessionName p = SessionName q /\ WindowId p = WindowId q /\ ID p = ID q)
  /\ (windowTarget p = windowTarget q ->
      SessionName p = SessionName q /\ WindowId p = WindowId q)
  /\ paneTarget p <> windowTarget q.
Proof.
  assert (Hcolon : forall n, count_byte colon (itoa n) = 0)
    by (intros n; now apply itoa_free).
  assert (Hdot : forall n, count_byte "." (itoa n) = 0)
    by (intros n; now apply itoa_free).
  assert (Htail : forall w i,
            count_byte colon (itoa w ++ String "." (itoa i)) = 0).
  { intros w i. rewrite count_byte_app. cbn [count_byte].
    change (Ascii.eqb "." colon) with false. now rewrite !Hcolon. }
  rewrite !paneTarget_eq, !windowTarget_eq. cbn [append]. repeat split.
  - now destruct (cut_last colon _ _ _ _ (Htail _ _) (Htail _ _) H).
  - destruct (cut_last colon _ _ _ _ (Htail _ _) (Htail _ _) H) as [_ H'].
    destruct (cut_first "." _ _ _ _ (Hdot _) (Hdot _) H') as [H1 _].
    now apply itoa_inj.
  - destruct (cut_last colon _ _ _ _ (Htail _ _) (Htail _ _) H) as [_ H'].
    destruct (cut_first "." _ _ _ _ (Hdot _) (Hdot _) H') as [_ H2].
    now apply itoa_inj.
  - now destruct (cut_last colon _ _ _ _ (Hcolon _) (Hcolon _) H).
  - destruct (cut_last colon _ _ _ _ (Hcolon _) (Hcolon _) H) as [_ H'].
    now apply itoa_inj.
  - intros H.
    destruct (cut_last colon _ _ _ _ (Htail _ _) (Hcolon _) H) as [_ H'].
    apply (f_equal (count_byte ".")) in H'.
    rewrite count_byte_app, !Hdot in H'. cbn [count_byte] in H'.
    rewrite Ascii.eqb_refl, Hdot in H'. discriminate H'.
Qed.

(** X10: when the runner answers with a width and a height of [int]
    written in decimal, an [x] between them and a line terminator after
    them, [GetCurrentSize] returns that width and that height and no
    error. *)
Theorem GetCurrentSize_reads_decimal_sizes
    (p : Pane) (st : state World) (w h : Z) (serr : string) (w' : World) :
  int_range w -> int_range h ->
  RunCmd ["display-message"; "-p"; "-t"; paneTarget p; "-F";
          "#{pane_width}x#{pane_height}"] (world st)
  = ((itoa w ++ "x" ++ itoa h ++ String LF "", serr, None)%string, w') ->
  GetCurrentSize RunCmd p st
  = Done (w, h, None)
         (called ["display-message"; "-p"; "-t"; paneTarget p; "-F";
                  "#{pane_width}x#{pane_height}"] w' st).
Proof.
  intros Hw Hh Hrun. rewrite (GetCurrentSize_ok _ _ _ _ _ _ _ Hrun).
  change (itoa w ++ "x" ++ itoa h ++ String LF "")%string
    with (itoa w ++ (String "x" (itoa h) ++ String LF ""))%string.
  rewrite <- app_assoc_s, slice_to_last.
  rewrite SplitN_first by (now apply itoa_free).
  cbn [index nth_error]. now rewrite (Atoi_itoa _ Hw), (Atoi_itoa _ Hh).
Qed.

(** X11: [GetCurrentPath] does not address its pane: it does the same
    for any two panes.  [SetFocus], [GetCurrentSize], [Capture] and
    [RunCommand] use of their pane the session name, the window id and the
    pane index only: they do the same for two panes that agree on these. *)
Theorem operations_use_identity_fields_only
    (p q : Pane) (command : string) (st : state World) :
  GetCurrentPath RunCmd p st = GetCurrentPath RunCmd q st
  /\ (SessionName p = SessionName q -> WindowId p = WindowId q -> ID p = ID q ->
      SetFocus RunCmd p st = SetFocus RunCmd q st
      /\ GetCurrentSize RunCmd p st = GetCurrentSize RunCmd q st
      /\ Capture RunCmd p st = Capture RunCmd q st
      /\ RunCommand RunCmd ErrorText p command st
         = RunCommand RunCmd ErrorText q command st).
Proof.
  split; [reflexivity|]. intros Hs Hw Hi.
  assert (Hp : paneTarget p = paneTarget q)
    by (unfold paneTarget; now rewrite Hs, Hw, Hi).
  assert (Hwt : windowTarget p = windowTarget q)
    by (unfold windowTarget; now rewrite Hs, Hw).
  unfold SetFocus, GetCurrentSize, Capture, RunCommand.
  rewrite Hp, Hwt. repeat split.
Qed.

(** The effect of [MovePane] on the state. *)
Lemma MovePane_effect
    (st : state World) (p t : ptr) (focus : bool) (pv tv : Pane)
    (out serr : string) (err : option error) (w' : World) :
  store st p = Some pv ->
  store st t = Some tv ->
  RunCmd (["join-pane"; "-s"; paneTarget pv; "-t"; windowTarget tv]
            ++ (if focus then [] else ["-d"])) (world st)
  = ((out, serr, err), w') ->
  exists st',
    MovePane RunCmd p t focus st = Done err st'
    /\ world st' = w'
    /\ calls st' = calls st
         ++ [ ["join-pane"; "-s"; paneTarget pv; "-t"; windowTarget tv]
                ++ (if focus then [] else ["-d"]) ]
    /\ store st' p
       = Some (set_WindowId (WindowId tv) (set_WindowName (WindowName tv) pv)).
Proof.
  intros Hp Ht Hrun.
  assert (Hargs :
    (if negb focus
     then ["join-pane"; "-s"; paneTarget pv; "-t"; windowTarget tv] ++ ["-d"]
     else ["join-pane"; "-s"; paneTarget pv; "-t"; windowTarget tv])
    = ["join-pane"; "-s"; paneTarget pv; "-t"; windowTarget tv]
        ++ (if focus then [] else ["-d"]))
    by (now destruct focus).
  unfold MovePane, bind, load at 1 2. rewrite Hp, Ht, Hargs.
  unfold Println at 1. unfold runCmd. cbn [world]. rewrite Hrun.
  unfold load at 1, called. cbn [store]. rewrite Ht.
  unfold write at 1. cbn [store]. rewrite Hp.
  unfold load. cbn [store].
  destruct (Nat.eqb_spec t p) as [-> | Hne].
  - assert (pv = tv) by congruence. subst tv.
    unfold write. cbn [store]. rewrite Nat.eqb_refl. unfold ret.
    eexists. split; [reflexivity|]. cbn [world calls store].
    rewrite Nat.eqb_refl. repeat split.
  - rewrite Ht. unfold write. cbn [store]. rewrite Nat.eqb_refl. unfold ret.
    eexists. split; [reflexivity|]. cbn [world calls store].
    rewrite Nat.eqb_refl. repeat split.
Qed.

(** X12: [MovePane] on a [nil] receiver, or on a [nil] destination, stops
    with a [nil] dereference; the receiver is looked at first. *)
Theorem MovePane_nil_pointer
    (st : state World) (p t : ptr) (focus : bool) :
  (store st p = None -> MovePane RunCmd p t focus st = Crash (inr p))
  /\ (store st p <> None -> store st t = None ->
      MovePane RunCmd p t focus st = Crash (inr t)).
Proof.
  split.
  - intros Hp. unfold MovePane, bind, load at 1. now rewrite Hp.
  - intros Hp Ht. unfold MovePane, bind, load at 1 2.
    destruct (store st p) as [pv|]; [|contradiction]. now rewrite Ht.
Qed.

(** X13: after [MovePane] the receiver keeps its session name and its pane
    index: a [SetFocus] on it selects the destination's window id in the
    receiver's own session, and there the pane index the receiver had in
    its former window. *)
Theorem SetFocus_after_MovePane
    (st : state World) (p t : ptr) (focus : bool) (pv tv : Pane) :
  store st p = Some pv ->
  store st t = Some tv ->
  exists e st',
    bind (MovePane RunCmd p t focus)
         (fun _ => bind (load p) (fun v => SetFocus RunCmd v)) st
    = Done e st'
    /\ calls st'
       = calls st
           ++ [ ["join-pane"; "-s"; paneTarget pv; "-t"; windowTarget tv]
                  ++ (if focus then [] else ["-d"]);
                ["select-window"; "-t";
                 (SessionName pv ++ ":" ++ itoa (WindowId tv))%string];
                ["select-pane"; "-t";
                 (SessionName pv ++ ":" ++ itoa (WindowId tv) ++ "."
                    ++ itoa (ID pv))%string] ].
Proof.
  intros Hp Ht.
  destruct (RunCmd (["join-pane"; "-s"; paneTarget pv; "-t"; windowTarget tv]
                      ++ (if focus then [] else ["-d"])) (world st))
    as [[[out serr] err] w'] eqn:Hrun.
  destruct (MovePane_effect _ _ _ _ _ _ _ _ _ _ Hp Ht Hrun)
    as (st1 & Hmove & Hworld & Hcalls & Hstore).
  unfold bind at 1. rewrite Hmove. unfold bind at 1, load. rewrite Hstore.
  unfold SetFocus, bind, runCmd.
  rewrite windowTarget_eq, paneTarget_eq.
  cbn [SessionName WindowId ID set_WindowId set_WindowName].
  destruct (RunCmd _ (world st1)) as [[[o1 s1] e1] w1]. cbn [world called].
  destruct (RunCmd _ w1) as [[[o2 s2] e2] w2]. unfold ret.
  eexists. eexists. split; [reflexivity|]. cbn [calls called].
  rewrite Hcalls, <- !app_assoc. reflexivity.
Qed.

(** X14: [RunCommand] on a [nil] receiver stops with a [nil] dereference.
    On a receiver that points to a pane it does not panic and calls the
    runner once, with [send-keys -t <pane target> <command> C-m]: the command
    is one argument, whatever bytes it holds.  It then returns [nil] exactly
    when the runner does; the error it returns otherwise reads as the
    runner's error, [": "] and the standard-error text; the standard output
    is dropped. *)
Theorem RunCommand_sends_keys
    (p : ptr) (command : string) (st : state World) :
  (store st p = None ->
   RunCommandOn RunCmd ErrorText p command st = Crash (inr p))
  /\ (forall (pv : Pane) (out serr : string) (err : option error) (w' : World),
        store st p = Some pv ->
        RunCmd ["send-keys"; "-t";
                (SessionName pv ++ ":" ++ itoa (WindowId pv) ++ "."
                   ++ itoa (ID pv))%string;
                command; "C-m"] (world st)
        = ((out, serr, err), w') ->
        exists res,
          RunCommandOn RunCmd ErrorText p command st
          = Done res
              (called ["send-keys"; "-t"; paneTarget pv; command; "C-m"] w' st)
          /\ (err = None -> res = None)
          /\ (forall e, err = Some e ->
                 res = Some (Errorf (ErrorText e ++ ": " ++ serr)%string))).
Proof.
  split.
  - intros Hp. unfold RunCommandOn, bind, load. now rewrite Hp.
  - intros pv out serr err w' Hp Hrun. rewrite <- paneTarget_eq in Hrun.
    unfold RunCommandOn, bind at 1, load. rewrite Hp.
    unfold RunCommand, bind. rewrite (runCmd_eq _ _ _ _ _ _ Hrun).
    destruct err as [e|]; unfold ret; eexists; (split; [reflexivity|]);
      split; congruence.
Qed.

(** X15: whatever the pattern finds in a line is a record that stands in
    the line: [$], a numeral, [:], a name, [:@], a numeral, [:], a name,
    [:], a numeral, [:%], a numeral, [:] and [0] or [1]; the submatches are
    the record and its seven parts.  A line without such a record gives
    [nil]. *)
Theorem pattern_finds_records_only (line : string) :
  FindStringSubmatch re line = []
  \/ exists pre rest sid sname wid wname widx pid f,
       line = (pre ++ ("$" ++ sid ++ ":" ++ sname ++ ":@" ++ wid ++ ":" ++ wname
                          ++ ":" ++ widx ++ ":%" ++ pid ++ ":" ++ String f "")
                   ++ rest)%string
       /\ numeral sid = true /\ dotted sname = true /\ numeral wid = true
       /\ dotted wname = true /\ numeral widx = true /\ numeral pid = true
       /\ zero_one f = true
       /\ FindStringSubmatch re line
          = [ ("$" ++ sid ++ ":" ++ sname ++ ":@" ++ wid ++ ":" ++ wname ++ ":"
                   ++ widx ++ ":%" ++ pid ++ ":" ++ String f "")%string;
              sid; sname; wid; wname; widx; pid; String f "" ].
Proof. exact (FindStringSubmatch_sound line). Qed.

End FurtherRunner.

(* ================================================================= *)
(** * The further properties on the scripted runner *)

Local Open Scope Z_scope.

Lemma ListPanes_always_returns_witness :
  ListPanes scripted ["-a"] (fresh [] [])
  = Done ([], Some (ExecError "exit status 1"))
      (called (["list-panes"; "-F"; format] ++ ["-a"]) [] (fresh [] [])).
Proof.
  apply (proj2 (ListPanes_always_returns Script scripted ["-a"] (fresh [] []))
           ""%string ""%string (ExecError "exit status 1") []).
  reflexivity.
Defined.

Lemma ListPanes_panes_are_listed_witness :
  Forall pane_listed
    [ {| ID := 0; SessionId := 1; SessionName := "main"; WindowId := 1;
         WindowName := "shell"; WindowIndex := 0; Active := true |};
      {| ID := 1; SessionId := 1; SessionName := "main"; WindowId := 1;
         WindowName := "shell"; WindowIndex := 0; Active := false |} ].
Proof.
  apply (ListPanes_panes_are_listed Script scripted ["-a"]
           (fresh [(Join (map text_of sample_items) (String LF ""), "", None)] [])
           (called (["list-panes"; "-F"; format] ++ ["-a"]) []
              (fresh [(Join (map text_of sample_items) (String LF ""), "", None)] []))
           _ None).
  reflexivity.
Defined.

Lemma ListPanes_one_pane_per_line_witness :
  (List.length [decode (merged row0 " " row1)] <= 1)%nat.
Proof.
  apply (ListPanes_one_pane_per_line Script scripted []
           (fresh [((render row0 ++ " " ++ render row1)%string, ""%string, None)] [])
           (called (["list-panes"; "-F"; format] ++ []) []
              (fresh [((render row0 ++ " " ++ render row1)%string, ""%string, None)] []))
           (render row0 ++ " " ++ render row1)%string ""%string []
           [decode (merged row0 " " row1)] None); reflexivity.
Defined.

Lemma ListPanes_without_dollar_witness :
  ListPanes scripted []
    (fresh [("no server running on /tmp/tmux-1000/default", "", None)%string] [])
  = Done ([], None)
      (called (["list-panes"; "-F"; format] ++ []) []
         (fresh [("no server running on /tmp/tmux-1000/default", "", None)%string] [])).
Proof.
  apply (ListPanes_without_dollar Script scripted []
           (fresh [("no server running on /tmp/tmux-1000/default", "", None)%string] [])
           "no server running on /tmp/tmux-1000/default"%string ""%string []);
    reflexivity.
Defined.

Lemma ListPanes_reads_records_in_lines_witness :
  ListPanes scripted []
    (fresh [(Join (map entry_text sample_entries) (String LF ""), "", None)] [])
  = Done ([ {| ID := 7; SessionId := 3; SessionName := "dev:api"; WindowId := 12;
               WindowName := "ssh:host"; WindowIndex := 4; Active := true |};
            {| ID := 1; SessionId := 1; SessionName := "main"; WindowId := 1;
               WindowName := "shell"; WindowIndex := 0; Active := false |} ],
          None)
      (called (["list-panes"; "-F"; format] ++ []) []
         (fresh [(Join (map entry_text sample_entries) (String LF ""), "", None)] [])).
Proof.
  apply (ListPanes_reads_records_in_lines Script scripted []
           (fresh [(Join (map entry_text sample_entries) (String LF ""), "", None)] [])
           sample_entries ""%string []); reflexivity.
Defined.

Lemma ListPanes_two_records_on_one_line_witness :
  ListPanes scripted []
    (fresh [((render row0 ++ " " ++ render row1)%string, ""%string, None)] [])
  = Done ([ {| ID := 1; SessionId := 1;
               SessionName := "main:@1:shell:0:%0:1 $1:main";
               WindowId := 1; WindowName := "shell"; WindowIndex := 0;
               Active := false |} ], None)
      (called (["list-panes"; "-F"; format] ++ []) []
         (fresh [((render row0 ++ " " ++ render row1)%string, ""%string, None)] [])).
Proof.
  apply (ListPanes_two_records_on_one_line Script scripted []
           (fresh [((render row0 ++ " " ++ render row1)%string, ""%string, None)] [])
           row0 row1 " "%string ""%string []); reflexivity.
Defined.

Lemma ListPanes_of_two_texts_witness :
  ListPanes scripted []
    (fresh [((render row0 ++ String LF (render row1))%string, ""%string, None)] [])
  = Done ([decode row0] ++ [decode row1], None)
      (called (["list-panes"; "-F"; format] ++ []) []
         (fresh [((render row0 ++ String LF (render row1))%string, ""%string, None)] [])).
Proof.
  apply (proj2 (proj2 (ListPanes_of_two_texts Script scripted []
           (fresh [((render row0 ++ String LF (render row1))%string, ""%string, None)] [])
           (render row0) (render row1) ""%string [] eq_refl))); reflexivity.
Defined.

Lemma ListPanes_targets_are_the_listed_texts_witness :
  exists panes,
    ListPanes scripted ["-a"]
      (fresh [(Join (map text_of sample_items) (String LF ""), "", None)] [])
    = Done (panes, None)
        (called (["list-panes"; "-F"; format] ++ ["-a"]) []
           (fresh [(Join (map text_of sample_items) (String LF ""), "", None)] []))
    /\ map paneTarget panes = ["main:1.0"; "main:1.1"]%string
    /\ map windowTarget panes = ["main:1"; "main:1"]%string.
Proof.
  apply (ListPanes_targets_are_the_listed_texts Script scripted ["-a"]
           (fresh [(Join (map text_of sample_items) (String LF ""), "", None)] [])
           sample_items ""%string []); reflexivity.
Defined.

Lemma targets_are_injective_witness :
  SessionName main_pane = "main"%string /\ WindowId main_pane = 2 /\ ID main_pane = 1.
Proof.
  apply (proj1 (targets_are_injective main_pane
           {| ID := 1; SessionId := 9; SessionName := "main"; WindowId := 2;
              WindowName := "other"; WindowIndex := 4; Active := false |})).
  reflexivity.
Defined.

Lemma GetCurrentSize_reads_decimal_sizes_witness :
  GetCurrentSize scripted main_pane
    (fresh [("213x57" ++ String LF "", "", None)%string] [])
  = Done (213, 57, None)
      (called ["display-message"; "-p"; "-t"; paneTarget main_pane; "-F";
               "#{pane_width}x#{pane_height}"]%string []
         (fresh [("213x57" ++ String LF "", "", None)%string] [])).
Proof.
  apply (GetCurrentSize_reads_decimal_sizes Script scripted main_pane
           (fresh [("213x57" ++ String LF "", "", None)%string] [])
           213 57 ""%string []);
    [ unfold int_range; rewrite maxInt_eq; unfold minInt; cbn; lia
    | unfold int_range; rewrite maxInt_eq; unfold minInt; cbn; lia
    | reflexivity ].
Defined.

Lemma operations_use_identity_fields_only_witness :
  Capture scripted main_pane (fresh [("$ ls", "", None)%string] [])
  = Capture scripted
      {| ID := 1; SessionId := 9; SessionName := "main"; WindowId := 2;
         WindowName := "other"; WindowIndex := 4; Active := false |}
      (fresh [("$ ls", "", None)%string] []).
Proof.
  apply (proj2 (operations_use_identity_fields_only Script scripted exec_text
           main_pane
           {| ID := 1; SessionId := 9; SessionName := "main"; WindowId := 2;
              WindowName := "other"; WindowIndex := 4; Active := false |}
           "ls"%string (fresh [("$ ls", "", None)%string] []))
           eq_refl eq_refl eq_refl).
Defined.

Lemma MovePane_nil_pointer_witness :
  MovePane scripted 5%nat 0%nat true (fresh [] [main_pane]) = Crash (inr 5%nat)
  /\ MovePane scripted 0%nat 5%nat true (fresh [] [main_pane]) = Crash (inr 5%nat).
Proof.
  split.
  - apply (proj1 (MovePane_nil_pointer Script scripted (fresh [] [main_pane])
                    5%nat 0%nat true)). reflexivity.
  - apply (proj2 (MovePane_nil_pointer Script scripted (fresh [] [main_pane])
                    0%nat 5%nat true)); [discriminate | reflexivity].
Defined.

(** A pane moved to a window of another session: the targets that follow
    name the former session. *)
Lemma SetFocus_after_MovePane_witness :
  exists e st',
    bind (MovePane scripted 0%nat 1%nat true)
         (fun _ => bind (load 0%nat) (fun v => SetFocus scripted v))
         (fresh [("", "", None); ("", "", None); ("", "", None)]%string
                [main_pane; work_pane])
    = Done e st'
    /\ calls st'
       = [ ["join-pane"; "-s"; "main:2.1"; "-t"; "work:7"];
           ["select-window"; "-t"; "main:7"];
           ["select-pane"; "-t"; "main:7.1"] ]%string.
Proof.
  apply (SetFocus_after_MovePane Script scripted
           (fresh [("", "", None); ("", "", None); ("", "", None)]%string
                  [main_pane; work_pane])
           0%nat 1%nat true main_pane work_pane); reflexivity.
Defined.

Lemma RunCommand_sends_keys_witness :
  RunCommandOn scripted exec_text 3%nat "ls" (fresh [] [main_pane])
  = Crash (inr 3%nat)
  /\ exists res,
       RunCommandOn scripted exec_text 0%nat "make test; echo done"
         (fresh [("", "can't find pane", Some (ExecError "exit status 1"))%string]
                [main_pane])
       = Done res
           (called ["send-keys"; "-t"; "main:2.1"; "make test; echo done"; "C-m"]%string
              []
              (fresh [("", "can't find pane", Some (ExecError "exit status 1"))%string]
                     [main_pane]))
       /\ res = Some (Errorf "exit status 1: can't find pane").
Proof.
  split.
  - apply (proj1 (RunCommand_sends_keys Script scripted exec_text 3%nat "ls"%string
                    (fresh [] [main_pane]))). reflexivity.
  - destruct (proj2 (RunCommand_sends_keys Script scripted exec_text 0%nat
                "make test; echo done"%string
                (fresh [("", "can't find pane", Some (ExecError "exit status 1"))%string]
                       [main_pane]))
                main_pane ""%string "can't find pane"%string
                (Some (ExecError "exit status 1")) [] eq_refl eq_refl)
      as (res & Hrun & _ & Herr).
    exists res. split; [exact Hrun | exact (Herr _ eq_refl)].
Defined.
